(** * dualconn: a raw IPv4 send socket paired with a kernel UDP receive socket

    A shallow embedding of [dualconn.go] (package [dualconn]) together with
    the properties of its session lifecycle, its send path and its
    configuration setters.

    The Go code talks to the operating system and to three libraries
    ([net], [golang.org/x/net/ipv4], [golang.org/x/net/bpf]).  Those calls
    are modelled as operations on an explicit [World] (the set of open
    sockets and the history of calls), whose outcomes are chosen by an
    environment [Env]: every theorem quantifies over all environments, so
    every failure the libraries can report is covered. *)

From Stdlib Require Import ZArith Lia.
From stdpp Require Import base strings list gmap.

Local Open Scope Z_scope.

(** ** Go values *)

(** Go's [error] values.  [ExtError] is an error produced by a library or
    by the kernel; [Errorf prefix err] is [fmt.Errorf(prefix + "%w", err)],
    which keeps the wrapped error reachable through [Unwrap]. *)
Inductive error : Type :=
| ExtError (msg : string)
| Errorf (prefix : string) (wrapped : error).

(** [err.Error()] *)
Fixpoint Error (e : error) : string :=
  match e with
  | ExtError msg => msg
  | Errorf prefix wrapped => prefix +:+ Error wrapped
  end.

(** [errors.Unwrap(err)] *)
Definition Unwrap (e : error) : option error :=
  match e with
  | ExtError _ => None
  | Errorf _ wrapped => Some wrapped
  end.

(** A Go result pair [(T, error)] of which exactly one side is meaningful. *)
Inductive result (T : Type) : Type :=
| Ok (v : T)
| Err (e : error).
Arguments Ok {T} v.
Arguments Err {T} e.

(** What a Go call does: it returns its results, or it panics and returns
    nothing. *)
Inductive outcome (T : Type) : Type :=
| Returns (v : T)
| Panics.
Arguments Returns {T} v.
Arguments Panics {T}.

(** Bytes are integers in [0, 256). *)
Abbreviation byte := Z (only parsing).
Abbreviation bytes := (list Z) (only parsing).

(** ** Packet filter programs ([golang.org/x/net/bpf]) *)

Inductive Register : Type := RegA | RegX.

(** The instructions of [bpf.Instruction] that the virtual machine below
    interprets; [RetConstant] is the only one the package builds. *)
Inductive Instruction : Type :=
| LoadConstant (Dst : Register) (Val : Z)
| Jump (Skip : nat)
| RetA
| RetConstant (Val : Z).

(** [bpf.RawInstruction] *)
Record RawInstruction : Type := mkRaw {
  Op : Z;
  Jt : Z;
  Jf : Z;
  K  : Z
}.

(** [bpf.VM.Run]: the loop over the program counter [i]; the result is the
    number of bytes of the packet to accept.  The counter only grows, so
    [length filter] rounds always reach the end of the program.  None of
    the instructions modelled reads the packet. *)
Fixpoint vm_loop (rounds : nat) (filter : list Instruction) (i : nat)
    (regA regX : Z) : Z :=
  match rounds with
  | O => 0
  | S rounds' =>
      match filter !! i with
      | None => 0
      | Some ins =>
          match ins with
          | LoadConstant RegA v => vm_loop rounds' filter (S i) v regX
          | LoadConstant RegX v => vm_loop rounds' filter (S i) regA v
          | Jump skip => vm_loop rounds' filter (S (i + skip)) regA regX
          | RetA => regA
          | RetConstant v => v
          end
      end
  end.

Definition vm_run (filter : list Instruction) (packet : bytes) : Z :=
  vm_loop (length filter) filter 0%nat 0 0.

(** What a socket with an attached filter delivers for an inbound packet:
    the packet cut to the accepted number of bytes, nothing when that
    number is [0]. *)
Definition deliver (filter : list Instruction) (packet : bytes) : option bytes :=
  let n := vm_run filter packet in
  if n =? 0 then None else Some (take (Z.to_nat n) packet).

(** ** The world: sockets and the history of calls *)

(** A socket of the operating system. *)
Definition handle := nat.

(** The connection objects of the Go libraries, each over one socket.
    [ipv4.NewRawConn] wraps the packet connection it is given, so a
    [RawConn] and the [PacketConn] it was made from share their socket. *)
Inductive conn : Type :=
| PacketConn (fd : handle)
| RawConn (fd : handle)
| UDPConn (fd : handle).

Definition fd_of (c : conn) : handle :=
  match c with
  | PacketConn fd | RawConn fd | UDPConn fd => fd
  end.

(** The calls that reach the operating system, in the order made. *)
Inductive call : Type :=
| CListenPacket (network address : string)
| CNewRawConn (c : conn)
| CSetBPF (c : conn) (filter : list RawInstruction)
| CListenUDP (network : string) (ip : string) (port : Z)
| CSetDeadline (c : conn) (t : Z)
| CWriteToIP (c : conn) (data : bytes) (ip : string)
| CClose (c : conn).

Record World : Type := mkWorld {
  opened : gset handle;
  history : list call
}.

(** The environment: the outcome of every call the package makes outside
    itself.  [None] for an [option error] is Go's [nil]. *)
Record Env : Type := mkEnv {
  listenPacket_err : World -> string -> string -> option error;
  newRawConn_err : World -> conn -> option error;
  (** [bpf.Assemble]: one raw instruction for each instruction of the
      program, or an error. *)
  Assemble : list Instruction -> result (list RawInstruction);
  setBPF_err : World -> conn -> list RawInstruction -> option error;
  listenUDP_err : World -> string -> string -> Z -> option error;
  close_err : World -> conn -> option error;
  now : World -> Z;
  setDeadline_err : World -> conn -> Z -> option error;
  writeToIP_res : World -> conn -> bytes -> string -> Z * option error;
  (** [EncodeIPPacket], a function of the package that [dualconn.go] calls
      and does not define. *)
  EncodeIPPacket :
    string -> string -> Z -> Z -> bytes -> Z -> Z -> Z -> result bytes;
  (** [qbpf.ParseTcpdumpFitlerData]: its one result is a filter program;
      it has no error result, so on an expression it cannot compile it
      returns some program, the empty one included, or panics. *)
  ParseTcpdumpFitlerData : string -> outcome (list RawInstruction)
}.

(** Computations over the world. *)
Definition M (A : Type) : Type := World -> A * World.

Definition ret {A} (a : A) : M A := fun w => (a, w).

Definition bind {A B} (m : M A) (k : A -> M B) : M B :=
  fun w => let (a, w') := m w in k a w'.

Notation "'do' x <- m ; k" := (bind m (fun x => k))
  (at level 10, x name, m at level 100, k at level 200).

Definition record_call (c : call) (w : World) : World :=
  {| opened := opened w; history := history w ++ [c] |}.

Section Calls.
Variable env : Env.

(** [net.ListenPacket(network, address)]: a new socket on success. *)
Definition ListenPacket (network address : string) : M (result conn) :=
  fun w =>
    match listenPacket_err env w network address with
    | Some e => (Err e, record_call (CListenPacket network address) w)
    | None =>
        let fd := fresh (opened w) in
        (Ok (PacketConn fd),
         {| opened := {[fd]} ∪ opened w;
            history := history w ++ [CListenPacket network address] |})
    end.

(** [ipv4.NewRawConn(c)]: a wrapper around the socket of [c]. *)
Definition NewRawConn (c : conn) : M (result conn) :=
  fun w =>
    let w' := record_call (CNewRawConn c) w in
    match newRawConn_err env w c with
    | Some e => (Err e, w')
    | None => (Ok (RawConn (fd_of c)), w')
    end.

(** [c.SetBPF(filter)] on a program that has an instruction: the call
    that attaches the program to the socket. *)
Definition SetBPF (c : conn) (filter : list RawInstruction) : M (option error) :=
  fun w => (setBPF_err env w c filter, record_call (CSetBPF c filter) w).

(** [c.SetBPF(filter)] on a program of any length.  The library takes the
    address of the first instruction ([&f[0]]) before it calls the socket,
    so an empty or nil program panics and no call is made. *)
Definition RawConnSetBPF (c : conn) (filter : list RawInstruction)
    : M (outcome (option error)) :=
  match filter with
  | [] => ret Panics
  | _ :: _ =>
      do err <- SetBPF c filter;
      ret (Returns err)
  end.

(** [net.ListenUDP(network, &net.UDPAddr{IP: net.ParseIP(ip), Port: port})] *)
Definition ListenUDP (network ip : string) (port : Z) : M (result conn) :=
  fun w =>
    match listenUDP_err env w network ip port with
    | Some e => (Err e, record_call (CListenUDP network ip port) w)
    | None =>
        let fd := fresh (opened w) in
        (Ok (UDPConn fd),
         {| opened := {[fd]} ∪ opened w;
            history := history w ++ [CListenUDP network ip port] |})
    end.

(** [c.Close()]: the socket is released whatever the call reports. *)
Definition CloseConn (c : conn) : M (option error) :=
  fun w =>
    (close_err env w c,
     {| opened := opened w ∖ {[fd_of c]};
        history := history w ++ [CClose c] |}).

(** [c.SetDeadline(time.Now().Add(d))] *)
Definition SetDeadline (c : conn) (d : Z) : M (option error) :=
  fun w =>
    let t := now env w + d in
    (setDeadline_err env w c t, record_call (CSetDeadline c t) w).

(** [c.WriteToIP(data, &net.IPAddr{IP: net.ParseIP(ip)})] *)
Definition RawWriteToIP (c : conn) (data : bytes) (ip : string)
    : M (Z * option error) :=
  fun w => (writeToIP_res env w c data ip, record_call (CWriteToIP c data ip) w).
End Calls.

(** ** The session ([DualConn]) *)

(** [IPv4Flag], [tos] and [ttl] are [uint8]; [timeout] is a
    [time.Duration] in nanoseconds. *)
Record DualConn : Type := mkDualConn {
  sendConn : conn;
  recvConn : conn;
  localIP : string;
  timeout : Z;
  tos : Z;
  ttl : Z;
  ipv4Flag : Z
}.

Definition createDropAllBPF : list Instruction :=
  [RetConstant 0].

Section Session.
Variable env : Env.

(** The program handed to [SetBPF] is the one [bpf.Assemble] made of the
    one instruction of [createDropAllBPF]. *)
Definition NewDualConn (localAddr : string) (port : Z) : M (result DualConn) :=
  do r <- ListenPacket env "ip:udp" localAddr;
  match r with
  | Err err => ret (Err err)
  | Ok pconn =>
      do r <- NewRawConn env pconn;
      match r with
      | Err err =>
          do _ <- CloseConn env pconn;
          ret (Err err)
      | Ok sendConn =>
          let dropAllFilter := createDropAllBPF in
          match Assemble env dropAllFilter with
          | Err err =>
              do _ <- CloseConn env sendConn;
              ret (Err err)
          | Ok filter =>
              do err <- SetBPF env sendConn filter;
              match err with
              | Some err =>
                  do _ <- CloseConn env sendConn;
                  ret (Err err)
              | None =>
                  do r <- ListenUDP env "udp" localAddr port;
                  match r with
                  | Err err =>
                      do _ <- CloseConn env sendConn;
                      ret (Err err)
                  | Ok uconn =>
                      ret (Ok {| sendConn := sendConn;
                                 recvConn := uconn;
                                 localIP := "";
                                 timeout := 0;
                                 tos := 0;
                                 ttl := 64;
                                 ipv4Flag := 0 |})
                  end
              end
          end
      end
  end.

Definition SetTimeout (c : DualConn) (timeout' : Z) : DualConn :=
  {| sendConn := sendConn c; recvConn := recvConn c; localIP := localIP c;
     timeout := timeout'; tos := tos c; ttl := ttl c; ipv4Flag := ipv4Flag c |}.

Definition SetTOS (c : DualConn) (tos' : Z) : DualConn :=
  {| sendConn := sendConn c; recvConn := recvConn c; localIP := localIP c;
     timeout := timeout c; tos := tos'; ttl := ttl c; ipv4Flag := ipv4Flag c |}.

Definition SetTTL (c : DualConn) (ttl' : Z) : DualConn :=
  {| sendConn := sendConn c; recvConn := recvConn c; localIP := localIP c;
     timeout := timeout c; tos := tos c; ttl := ttl'; ipv4Flag := ipv4Flag c |}.

Definition SetIPv4Flag (c : DualConn) (flag : Z) : DualConn :=
  {| sendConn := sendConn c; recvConn := recvConn c; localIP := localIP c;
     timeout := timeout c; tos := tos c; ttl := ttl c; ipv4Flag := flag |}.

(** The source address [WriteToIP] builds the packet with: its first
    statement, [if localIP == "" { localIP = c.localIP }]. *)
Definition sourceIP (c : DualConn) (localIP' : string) : string :=
  if decide (localIP' = "") then localIP c else localIP'.

Definition WriteToIP (c : DualConn) (payload : bytes)
    (localIP' remoteIP : string) (localPort remotePort : Z)
    : M (Z * option error) :=
  let localIP' := sourceIP c localIP' in
  match EncodeIPPacket env localIP' remoteIP localPort remotePort payload
          (ttl c) (tos c) (ipv4Flag c) with
  | Err err => ret (0, Some (Errorf "failed to encode IP packet: " err))
  | Ok data =>
      do _ <- (if 0 <? timeout c
               then SetDeadline env (sendConn c) (timeout c)
               else ret None);
      do r <- RawWriteToIP env (sendConn c) data remoteIP;
      match r with
      | (n, Some err) => ret (0, Some (Errorf "failed to write to IP: " err))
      | (n, None) => ret (n, None)
      end
  end.

Definition SetBBF (c : DualConn) (filter : list RawInstruction)
    : M (outcome (option error)) :=
  RawConnSetBPF env (sendConn c) filter.

Definition SetBBFExpr (c : DualConn) (expr : string)
    : M (outcome (option error)) :=
  match ParseTcpdumpFitlerData env expr with
  | Panics => ret Panics
  | Returns filter => RawConnSetBPF env (sendConn c) filter
  end.

Definition Close (c : DualConn) : M (option error) :=
  do _ <- CloseConn env (sendConn c);
  CloseConn env (recvConn c).
End Session.

(** ** The correlation header of a payload

    [EncodePayloadWithPort], [DecodePayload], [ComparePayload] and
    [MakePayload] belong to the package and are called by its example
    program [examples/dualconn/main.go]; they are defined outside
    [dualconn.go]. *)

(** Modelled from the spec: the size of the correlation header, 8+8+2+2+1
    bytes; the constant is declared outside [dualconn.go]. *)
Definition headerSize : nat := 21.

(** Modelled from the spec: the fixed big-endian byte order of a header
    field of [n] bytes, most significant byte first, as
    [binary.BigEndian.PutUint64] and [PutUint16] write it; the serializer
    is defined outside [dualconn.go]. *)
Fixpoint be_bytes (n : nat) (v : Z) : bytes :=
  match n with
  | O => []
  | S k => Z.land (Z.shiftr v (8 * Z.of_nat k)) 255 :: be_bytes k v
  end.

(** Modelled from the spec: reading a big-endian field back, as
    [binary.BigEndian.Uint64] does; the reader is defined outside
    [dualconn.go]. *)
Definition be_value (bs : bytes) : Z :=
  fold_left (fun acc b => Z.lor (Z.shiftl acc 8) b) bs 0.

(** Modelled from the spec: the byte-wise comparison of [n] bytes of two
    buffers from index [i] on; the loop is defined outside
    [dualconn.go]. *)
Fixpoint same_bytes (a b : bytes) (i n : nat) : bool :=
  match n with
  | O => true
  | S n' =>
      match a !! i, b !! i with
      | Some x, Some y => (x =? y) && same_bytes a b (S i) n'
      | _, _ => false
      end
  end.

Section Payload.
(** The fill rule: the filler byte of a payload kind at a buffer index.
    The spec leaves the rule open, so it is a parameter. *)
Variable filler : Z -> nat -> byte.

(** Modelled from the spec: [MakePayload(payloadKind, size)], a buffer of
    [size] bytes holding the filler pattern, the header region zeroed;
    its code is defined outside [dualconn.go]. *)
Definition MakePayload (payloadKind : Z) (size : nat) : bytes :=
  replicate (size `min` headerSize) 0
    ++ map (filler payloadKind) (seq headerSize (size - headerSize)).

(** Modelled from the spec: [Encode], which writes the five fields into
    the first [headerSize] bytes at offsets 0, 8, 16, 18 and 20, fills
    the rest by the fill rule, and fails on a buffer shorter than the
    header; its code ([EncodePayloadWithPort]) is defined outside
    [dualconn.go].  The buffer is written in place; the result is its new
    contents. *)
Definition EncodePayloadWithPort (timestamp sequence sourcePort destPort : Z)
    (payload : bytes) (payloadKind : Z) : result bytes :=
  if (length payload <? headerSize)%nat
  then Err (ExtError "payload is too short")
  else Ok (be_bytes 8 timestamp ++ be_bytes 8 sequence
             ++ be_bytes 2 sourcePort ++ be_bytes 2 destPort
             ++ be_bytes 1 payloadKind
             ++ map (filler payloadKind)
                  (seq headerSize (length payload - headerSize))).

(** Modelled from the spec: [Decode], which reads timestamp, sequence and
    payload kind back and fails with a size error on a buffer shorter
    than the header; its code ([DecodePayload]) is defined outside
    [dualconn.go]. *)
Definition DecodePayload (buffer : bytes) : result (Z * Z * Z) :=
  if (length buffer <? headerSize)%nat
  then Err (ExtError "payload is too short")
  else Ok (be_value (take 8 buffer),
           be_value (take 8 (drop 8 buffer)),
           be_value (take 1 (drop 20 buffer))).

(** Modelled from the spec: [Compare], the byte-wise equality check
    restricted to [[bodyOffset, bodyOffset+bodyLength)] of both buffers,
    failing when either buffer is shorter than [bodyOffset+bodyLength];
    its code ([ComparePayload]) is defined outside [dualconn.go]. *)
Definition ComparePayload (sentPayload receivedBuffer : bytes)
    (bodyOffset bodyLength : nat) : result bool :=
  if (length sentPayload <? bodyOffset + bodyLength)%nat
     || (length receivedBuffer <? bodyOffset + bodyLength)%nat
  then Err (ExtError "payload is too short")
  else Ok (same_bytes sentPayload receivedBuffer bodyOffset bodyLength).
End Payload.

(** ** Environments used to run the definitions *)

(** [bpf.Assemble] on the instructions modelled here: opcode [0x06] is
    [BPF_RET|BPF_K], [0x16] is [BPF_RET|BPF_A], [0x00] and [0x01] load a
    constant into A and X, [0x05] is [BPF_JMP|BPF_JA]. *)
Definition assemble_ins (ins : Instruction) : RawInstruction :=
  match ins with
  | LoadConstant RegA v => mkRaw 0 0 0 v
  | LoadConstant RegX v => mkRaw 1 0 0 v
  | Jump skip => mkRaw 5 0 0 (Z.of_nat skip)
  | RetA => mkRaw 22 0 0 0
  | RetConstant v => mkRaw 6 0 0 v
  end.

(** An environment in which every call succeeds; an address is accepted by
    the packet encoder when it is not empty, a write reports the length of
    the data, and every filter expression compiles to the program that
    accepts a whole packet. *)
Definition quiet : Env :=
  {| listenPacket_err := fun _ _ _ => None;
     newRawConn_err := fun _ _ => None;
     Assemble := fun prog => Ok (map assemble_ins prog);
     setBPF_err := fun _ _ _ => None;
     listenUDP_err := fun _ _ _ _ => None;
     close_err := fun _ _ => None;
     now := fun _ => 0;
     setDeadline_err := fun _ _ _ => None;
     writeToIP_res := fun _ _ data _ => (Z.of_nat (length data), None);
     EncodeIPPacket := fun src dst _ _ payload _ _ _ =>
       if decide (src = "") then Err (ExtError "invalid source address")
       else if decide (dst = "") then Err (ExtError "invalid destination address")
       else Ok payload;
     ParseTcpdumpFitlerData := fun _ => Returns [mkRaw 6 0 0 262144] |}.

(** [quiet], except that binding the UDP receive socket fails. *)
Definition port_in_use : Env :=
  {| listenPacket_err := listenPacket_err quiet;
     newRawConn_err := newRawConn_err quiet;
     Assemble := Assemble quiet;
     setBPF_err := setBPF_err quiet;
     listenUDP_err := fun _ _ _ _ => Some (ExtError "bind: address already in use");
     close_err := close_err quiet;
     now := now quiet;
     setDeadline_err := setDeadline_err quiet;
     writeToIP_res := writeToIP_res quiet;
     EncodeIPPacket := EncodeIPPacket quiet;
     ParseTcpdumpFitlerData := ParseTcpdumpFitlerData quiet |}.

(** [quiet], except that every write on the raw socket fails. *)
Definition unreachable : Env :=
  {| listenPacket_err := listenPacket_err quiet;
     newRawConn_err := newRawConn_err quiet;
     Assemble := Assemble quiet;
     setBPF_err := setBPF_err quiet;
     listenUDP_err := listenUDP_err quiet;
     close_err := close_err quiet;
     now := now quiet;
     setDeadline_err := setDeadline_err quiet;
     writeToIP_res := fun _ _ _ _ => (0, Some (ExtError "sendto: network is unreachable"));
     EncodeIPPacket := EncodeIPPacket quiet;
     ParseTcpdumpFitlerData := ParseTcpdumpFitlerData quiet |}.

Definition empty_world : World := {| opened := ∅; history := [] |}.

(** [env] with another outcome for [SetDeadline]. *)
Definition with_setDeadline_err (env : Env)
    (f : World -> conn -> Z -> option error) : Env :=
  {| listenPacket_err := listenPacket_err env;
     newRawConn_err := newRawConn_err env;
     Assemble := Assemble env;
     setBPF_err := setBPF_err env;
     listenUDP_err := listenUDP_err env;
     close_err := close_err env;
     now := now env;
     setDeadline_err := f;
     writeToIP_res := writeToIP_res env;
     EncodeIPPacket := EncodeIPPacket env;
     ParseTcpdumpFitlerData := ParseTcpdumpFitlerData env |}.

(** [quiet], except that every [Close] reports an error. *)
Definition close_fails : Env :=
  {| listenPacket_err := listenPacket_err quiet;
     newRawConn_err := newRawConn_err quiet;
     Assemble := Assemble quiet;
     setBPF_err := setBPF_err quiet;
     listenUDP_err := listenUDP_err quiet;
     close_err := fun _ _ => Some (ExtError "close: input/output error");
     now := now quiet;
     setDeadline_err := setDeadline_err quiet;
     writeToIP_res := writeToIP_res quiet;
     EncodeIPPacket := EncodeIPPacket quiet;
     ParseTcpdumpFitlerData := ParseTcpdumpFitlerData quiet |}.

(** [env] with another filter-expression compiler and another outcome of
    installing a program. *)
Definition with_compiler (env : Env)
    (parse : string -> outcome (list RawInstruction))
    (install : option error) : Env :=
  {| listenPacket_err := listenPacket_err env;
     newRawConn_err := newRawConn_err env;
     Assemble := Assemble env;
     setBPF_err := fun _ _ _ => install;
     listenUDP_err := listenUDP_err env;
     close_err := close_err env;
     now := now env;
     setDeadline_err := setDeadline_err env;
     writeToIP_res := writeToIP_res env;
     EncodeIPPacket := EncodeIPPacket env;
     ParseTcpdumpFitlerData := parse |}.

(** ** A compiler that reports errors

    The specification describes the compiler of filter expressions as one
    that yields a program or an error.  The definitions below state that
    reading, to compare it with [SetBBFExpr]. *)

(** Modelled from the spec: the external compiler of [InstallExpression],
    which compiles an expression into a filter program or fails with an
    error; the code reaches its compiler through
    [qbpf.ParseTcpdumpFitlerData], which has no error result. *)
Definition spec_compiler : Type := string -> result (list RawInstruction).

(** [parse], a function with the one result of
    [qbpf.ParseTcpdumpFitlerData], stands for the compiler [compile]: on
    every expression the compiler accepts it returns the compiler's
    program.  On the others it is free: it has no error to return. *)
Definition stands_for (parse : string -> outcome (list RawInstruction))
    (compile : spec_compiler) : Prop :=
  ∀ expr prog, compile expr = Ok prog -> parse expr = Returns prog.

(** Modelled from the spec: "errors from the external compiler propagate
    unchanged", said of [SetBBFExpr] in an environment whose compiler
    stands for [compile]. *)
Definition propagates_compiler_errors (env : Env) (compile : spec_compiler)
    : Prop :=
  ∀ (c : DualConn) (expr : string) (w : World) (e : error),
    compile expr = Err e ->
    fst (SetBBFExpr env c expr w) = Returns (Some e).

(** The program of the expression "udp" on a raw IP socket: load the
    protocol byte, compare it with 17, accept the packet or drop it. *)
Definition udp_program : list RawInstruction :=
  [mkRaw 48 0 0 9; mkRaw 21 0 1 17; mkRaw 6 0 0 262144; mkRaw 6 0 0 0].

(** A compiler that knows the expression "udp" and fails on every other
    one with a syntax error. *)
Definition udp_only : spec_compiler :=
  fun expr =>
    if decide (expr = "udp") then Ok udp_program
    else Err (ExtError "syntax error").

(** [udp_only] through the one-result signature, with [on_failure] as what
    the function does where the compiler fails. *)
Definition udp_only_parse (on_failure : outcome (list RawInstruction))
    : string -> outcome (list RawInstruction) :=
  fun expr =>
    match udp_only expr with
    | Ok prog => Returns prog
    | Err _ => on_failure
    end.

(** The filter programs handed to [SetBPF] for the connections over the
    socket [fd], in the order of the calls. *)
Fixpoint filters_set_on (fd : handle) (calls : list call)
    : list (list RawInstruction) :=
  match calls with
  | [] => []
  | CSetBPF c filter :: calls' =>
      if decide (fd_of c = fd)
      then filter :: filters_set_on fd calls'
      else filters_set_on fd calls'
  | _ :: calls' => filters_set_on fd calls'
  end.

(** ** The example program ([examples/dualconn/main.go])

    The local port of the send loop in [main]: a [uint16] that starts at
    20000 and at the end of each round goes through
    [localPort++; if localPort == 21000 { localPort = 20000 }]. *)
Definition nextLocalPort (localPort : Z) : Z :=
  let localPort := (localPort + 1) mod 2 ^ 16 in
  if localPort =? 21000 then 20000 else localPort.

(** ** Proof steps shared by the theorems *)

(** Unfolds the calls of a computation down to the outcomes chosen by the
    environment. *)
Ltac run_calls :=
  unfold NewDualConn, WriteToIP, SetBBF, SetBBFExpr, RawConnSetBPF, Close,
    bind, ret, ListenPacket, NewRawConn, SetBPF, ListenUDP, CloseConn,
    SetDeadline,
    RawWriteToIP, record_call in *;
  cbn [opened history fd_of fst snd] in *.

(** Splits on the next outcome the environment chooses. *)
Ltac next_outcome :=
  match goal with
  | H : context [match ?o with Some _ => _ | None => _ end] |- _ =>
      let E := fresh "Hstep" in destruct o eqn:E
  | H : context [match ?r with Ok _ => _ | Err _ => _ end] |- _ =>
      let E := fresh "Hstep" in destruct r eqn:E
  end;
  cbn [opened history fd_of fst snd] in *.

(** Decides a membership in a list of calls that is written out. *)
Ltac absent_call H :=
  repeat (apply elem_of_cons in H as [H|H]; [discriminate H|]);
  apply elem_of_nil in H; contradiction.

(** * Properties *)

(** ** Helpers *)

(** Releasing the socket that was just allocated gives back the set of
    open sockets there was before. *)
Lemma release_fresh (s : gset handle) : ({[fresh s]} ∪ s) ∖ {[fresh s]} = s.
Proof.
  pose proof (is_fresh s) as Hfresh.
  apply set_eq; intros x.
  rewrite elem_of_difference, elem_of_union, elem_of_singleton.
  split; [tauto | intros Hx; split; [tauto | congruence]].
Qed.

(** Closes a goal that a run of [NewDualConn] fails at the step whose
    outcome was just given, with the sockets released. *)
Ltac fails_at :=
  eexists; split; [reflexivity|]; cbn [opened history]; split;
  [apply release_fresh | rewrite <- ?app_assoc; reflexivity].

Lemma not_a_close_1 (s : call) :
  (∀ c', s ≠ CClose c') -> Forall (fun s => ∀ c' : conn, s ≠ CClose c') [s].
Proof. intros Hs. constructor; [exact Hs | constructor]. Qed.

(** ** Opening a session *)

(** The steps of a failed [NewDualConn] that closed the raw socket: the
    error returned, the sockets left open and the calls made. *)
Lemma NewDualConn_failed_after
    (env : Env) (localAddr : string) (port : Z) (w w' : World) (e : error) :
  NewDualConn env localAddr port w = (Err e, w') ->
  let fd := fresh (opened w) in
  opened w' = opened w
  ∧ (listenPacket_err env w "ip:udp" localAddr = Some e
     ∧ history w' = history w ++ [CListenPacket "ip:udp" localAddr]
     ∨ listenPacket_err env w "ip:udp" localAddr = None
       ∧ (fd ∉ opened w')
       ∧ ∃ (steps : list call) (c : conn),
           history w'
           = history w
               ++ [CListenPacket "ip:udp" localAddr; CNewRawConn (PacketConn fd)]
               ++ steps ++ [CClose c]
           ∧ fd_of c = fd
           ∧ Forall (fun s => ∀ c', s ≠ CClose c') steps
           ∧ (c = PacketConn fd ∧ steps = [] ∨ c = RawConn fd)).
Proof.
  intros Hrun fd. subst fd. run_calls.
  repeat next_outcome; simplify_eq; cbn [opened history fd_of].
  all: rewrite ?release_fresh; split; [reflexivity|].
  - (* no socket was created *)
    left. split; reflexivity.
  - (* wrapping the packet connection failed *)
    right. split; [reflexivity|]. split; [apply is_fresh|].
    exists [], (PacketConn (fresh (opened w))). rewrite <- !app_assoc.
    repeat split; [constructor | left; split; reflexivity].
  - (* installing the filter failed *)
    right. split; [reflexivity|]. split; [apply is_fresh|].
    eexists [_], (RawConn _). rewrite <- !app_assoc.
    repeat split; [| right; reflexivity].
    apply not_a_close_1; discriminate.
  - (* the UDP bind failed *)
    right. split; [reflexivity|]. split; [apply is_fresh|].
    eexists [_; _], (RawConn _). rewrite <- !app_assoc.
    repeat split; [| right; reflexivity].
    constructor; [discriminate | apply not_a_close_1; discriminate].
  - (* assembling the filter failed *)
    right. split; [reflexivity|]. split; [apply is_fresh|].
    exists [], (RawConn (fresh (opened w))). rewrite <- !app_assoc.
    repeat split; [constructor | right; reflexivity].
Qed.

(** C1: whichever step of [NewDualConn] fails once the raw socket exists
    (wrapping the packet connection, assembling the filter, installing it,
    binding the UDP socket), [NewDualConn] returns the error of that step,
    its last call is [Close] on the raw socket (on the packet connection
    when wrapping it failed, on the raw connection afterwards), and the
    sockets open are those that were open before the call.  Conversely,
    every error return of [NewDualConn] leaves the open sockets as they
    were and, when the raw socket had been created, ends with that
    [Close]. *)
Theorem NewDualConn_failure_closes_raw_socket
    (env : Env) (localAddr : string) (port : Z) (w : World) :
  let fd := fresh (opened w) in
  let listen := CListenPacket "ip:udp" localAddr in
  let wrap := CNewRawConn (PacketConn fd) in
  let w1 := {| opened := {[fd]} ∪ opened w; history := history w ++ [listen] |} in
  let w2 := record_call wrap w1 in
  let fails_with (e : error) (calls : list call) : Prop :=
    ∃ w', NewDualConn env localAddr port w = (Err e, w')
          ∧ opened w' = opened w
          ∧ history w' = history w ++ calls in
  (listenPacket_err env w "ip:udp" localAddr = None ->
   (∀ e, newRawConn_err env w1 (PacketConn fd) = Some e ->
         fails_with e [listen; wrap; CClose (PacketConn fd)])
   ∧ (newRawConn_err env w1 (PacketConn fd) = None ->
      (∀ e, Assemble env createDropAllBPF = Err e ->
            fails_with e [listen; wrap; CClose (RawConn fd)])
      ∧ (∀ filter,
           Assemble env createDropAllBPF = Ok filter ->
           let install := CSetBPF (RawConn fd) filter in
           (∀ e, setBPF_err env w2 (RawConn fd) filter = Some e ->
                 fails_with e [listen; wrap; install; CClose (RawConn fd)])
           ∧ (setBPF_err env w2 (RawConn fd) filter = None ->
              ∀ e, listenUDP_err env (record_call install w2) "udp" localAddr
                     port = Some e ->
                   fails_with e
                     [listen; wrap; install; CListenUDP "udp" localAddr port;
                      CClose (RawConn fd)]))))
  ∧ (∀ (w' : World) (e : error),
       NewDualConn env localAddr port w = (Err e, w') ->
       opened w' = opened w
       ∧ (listenPacket_err env w "ip:udp" localAddr = Some e
          ∧ history w' = history w ++ [listen]
          ∨ listenPacket_err env w "ip:udp" localAddr = None
            ∧ (fd ∉ opened w')
            ∧ ∃ (steps : list call) (c : conn),
                history w' = history w ++ [listen; wrap] ++ steps ++ [CClose c]
                ∧ fd_of c = fd
                ∧ Forall (fun s => ∀ c', s ≠ CClose c') steps
                ∧ (c = PacketConn fd ∧ steps = [] ∨ c = RawConn fd))).
Proof.
  intros fd listen wrap w1 w2 fails_with.
  subst fd listen wrap w1 w2 fails_with. cbv beta.
  split; [|intros w' e Hrun; exact (NewDualConn_failed_after _ _ _ _ _ _ Hrun)].
  unfold NewDualConn, bind, ret, ListenPacket, NewRawConn, SetBPF, ListenUDP,
    CloseConn, record_call.
  intros ->. cbv beta iota zeta. cbn [opened history fd_of].
  split; [intros e ->; fails_at|]. intros ->.
  cbv beta iota zeta. cbn [opened history fd_of].
  split; [intros e ->; fails_at|]. intros filter ->.
  cbv beta iota zeta. cbn [opened history fd_of].
  split; [intros e ->; fails_at|]. intros ->.
  cbv beta iota zeta. cbn [opened history fd_of].
  intros e ->. fails_at.
Qed.

Lemma NewDualConn_failure_closes_raw_socket_witness :
  ∃ w', NewDualConn port_in_use "127.0.0.1" 40000 empty_world
        = (Err (ExtError "bind: address already in use"), w')
        ∧ opened w' = opened empty_world
        ∧ history w'
          = history empty_world
              ++ [CListenPacket "ip:udp" "127.0.0.1";
                  CNewRawConn (PacketConn (fresh (opened empty_world)));
                  CSetBPF (RawConn (fresh (opened empty_world)))
                    [mkRaw 6 0 0 0];
                  CListenUDP "udp" "127.0.0.1" 40000;
                  CClose (RawConn (fresh (opened empty_world)))].
Proof.
  destruct (NewDualConn_failure_closes_raw_socket port_in_use "127.0.0.1"
              40000 empty_world) as [Hsteps _].
  destruct (Hsteps eq_refl) as [_ Hwrapped].
  destruct (Hwrapped eq_refl) as [_ Hassembled].
  destruct (Hassembled [mkRaw 6 0 0 0] eq_refl) as [_ Hinstalled].
  exact (Hinstalled eq_refl (ExtError "bind: address already in use") eq_refl).
Defined.

(** What a successful [NewDualConn] leaves behind: the session it returns,
    the calls it made and the sockets it opened. *)
Lemma NewDualConn_success
    (env : Env) (localAddr : string) (port : Z) (w w' : World) (c : DualConn) :
  NewDualConn env localAddr port w = (Ok c, w') ->
  let fd := fresh (opened w) in
  let fd' := fresh ({[fd]} ∪ opened w) in
  ∃ filter,
    Assemble env createDropAllBPF = Ok filter
    ∧ c = {| sendConn := RawConn fd; recvConn := UDPConn fd'; localIP := "";
             timeout := 0; tos := 0; ttl := 64; ipv4Flag := 0 |}
    ∧ history w'
      = history w
          ++ [CListenPacket "ip:udp" localAddr; CNewRawConn (PacketConn fd);
              CSetBPF (RawConn fd) filter; CListenUDP "udp" localAddr port]
    ∧ opened w' = {[fd']} ∪ ({[fd]} ∪ opened w).
Proof.
  intros Hrun fd fd'. subst fd fd'. run_calls.
  repeat next_outcome; simplify_eq.
  eexists. split; [reflexivity|]. rewrite <- !app_assoc.
  repeat split.
Qed.

(** C8: right after a successful [NewDualConn] the session's TTL is 64
    and every other configuration field (timeout, TOS, IPv4 flags, and the
    local address) has its zero value.  The fields of a session change
    only through the setters, which return the changed session. *)
Theorem NewDualConn_defaults
    (env : Env) (localAddr : string) (port : Z) (w w' : World) (c : DualConn) :
  NewDualConn env localAddr port w = (Ok c, w') ->
  ttl c = 64 ∧ timeout c = 0 ∧ tos c = 0 ∧ ipv4Flag c = 0 ∧ localIP c = "".
Proof.
  intros Hrun. apply NewDualConn_success in Hrun as (filter & _ & -> & _).
  repeat split.
Qed.

Lemma NewDualConn_defaults_witness :
  ∃ c w', NewDualConn quiet "127.0.0.1" 40000 empty_world = (Ok c, w')
          ∧ ttl c = 64 ∧ timeout c = 0 ∧ tos c = 0 ∧ ipv4Flag c = 0
          ∧ localIP c = "".
Proof.
  eexists _, (snd (NewDualConn quiet "127.0.0.1" 40000 empty_world)).
  assert (Hrun : NewDualConn quiet "127.0.0.1" 40000 empty_world
                 = (Ok {| sendConn := RawConn 0%nat; recvConn := UDPConn 1%nat;
                          localIP := ""; timeout := 0; tos := 0; ttl := 64;
                          ipv4Flag := 0 |},
                    snd (NewDualConn quiet "127.0.0.1" 40000 empty_world)))
    by (vm_compute; reflexivity).
  split; [exact Hrun|].
  exact (NewDualConn_defaults quiet "127.0.0.1" 40000 empty_world _ _ Hrun).
Defined.

(** A session is returned only when the installation of the assembled
    drop-all program on the raw socket reported no error. *)
Lemma NewDualConn_filter_installed
    (env : Env) (localAddr : string) (port : Z) (w w' : World) (c : DualConn)
    (filter : list RawInstruction) :
  NewDualConn env localAddr port w = (Ok c, w') ->
  Assemble env createDropAllBPF = Ok filter ->
  let fd := fresh (opened w) in
  setBPF_err env
    (record_call (CNewRawConn (PacketConn fd))
       {| opened := {[fd]} ∪ opened w;
          history := history w ++ [CListenPacket "ip:udp" localAddr] |})
    (RawConn fd) filter
  = None.
Proof.
  intros Hrun Hasm fd. subst fd. run_calls. rewrite Hasm in Hrun.
  repeat next_outcome; simplify_eq. reflexivity.
Qed.

(** C6: the drop-all filter is the single instruction [RetConstant 0]; run
    on any packet it accepts 0 bytes, so a socket carrying it delivers
    nothing; and a session is returned by [NewDualConn] only after the
    assembled drop-all filter was installed on the raw send socket of the
    session and the installation succeeded, that program being the only
    one set on the socket, so the one in force. *)
Theorem createDropAllBPF_drops_everything :
  createDropAllBPF = [RetConstant 0]
  ∧ (∀ packet : bytes,
       vm_run createDropAllBPF packet = 0
       ∧ take (Z.to_nat (vm_run createDropAllBPF packet)) packet = []
       ∧ deliver createDropAllBPF packet = None)
  ∧ (∀ (env : Env) (localAddr : string) (port : Z) (w w' : World) (c : DualConn),
       NewDualConn env localAddr port w = (Ok c, w') ->
       let fd := fresh (opened w) in
       ∃ filter new,
         Assemble env createDropAllBPF = Ok filter
         ∧ sendConn c = RawConn fd
         ∧ CSetBPF (sendConn c) filter ∈ history w'
         ∧ setBPF_err env
             (record_call (CNewRawConn (PacketConn fd))
                {| opened := {[fd]} ∪ opened w;
                   history := history w ++ [CListenPacket "ip:udp" localAddr] |})
             (sendConn c) filter
           = None
         ∧ history w' = history w ++ new
         ∧ filters_set_on fd new = [filter]).
Proof.
  split; [reflexivity|]. split.
  - intros packet. repeat split.
  - intros env localAddr port w w' c Hrun fd. subst fd.
    pose proof Hrun as Hinstalled.
    apply NewDualConn_success in Hrun as (filter & Hasm & -> & Hhist & _).
    pose proof (NewDualConn_filter_installed env localAddr port w w' _ filter
                  Hinstalled Hasm) as Hnone.
    cbv zeta in Hnone.
    eexists filter, _. split; [exact Hasm|]. split; [reflexivity|].
    cbn [sendConn]. split.
    { rewrite Hhist, elem_of_app. right.
      do 2 apply list_elem_of_further. apply list_elem_of_here. }
    split; [exact Hnone|]. split; [exact Hhist|].
    cbn [filters_set_on fd_of].
    destruct (decide (fresh (opened w) = fresh (opened w))) as [_|Hne];
      [reflexivity | contradiction].
Qed.

Lemma createDropAllBPF_drops_everything_witness :
  deliver createDropAllBPF [69; 0; 0; 29] = None
  ∧ CSetBPF (RawConn 0%nat) [mkRaw 6 0 0 0]
    ∈ history (snd (NewDualConn quiet "127.0.0.1" 40000 empty_world))
  ∧ filters_set_on 0%nat
      (history (snd (NewDualConn quiet "127.0.0.1" 40000 empty_world)))
    = [[mkRaw 6 0 0 0]].
Proof.
  destruct createDropAllBPF_drops_everything as (_ & Hdrop & Hinstalled).
  split; [apply Hdrop|].
  destruct (Hinstalled quiet "127.0.0.1" 40000 empty_world
              (snd (NewDualConn quiet "127.0.0.1" 40000 empty_world))
              {| sendConn := RawConn 0%nat; recvConn := UDPConn 1%nat;
                 localIP := ""; timeout := 0; tos := 0; ttl := 64;
                 ipv4Flag := 0 |})
    as (filter & new & Hasm & _ & Hin & _ & Hhist & Hset);
    [vm_compute; reflexivity|].
  vm_compute in Hasm. injection Hasm as <-.
  split; [exact Hin|].
  rewrite Hhist. exact Hset.
Defined.

(** ** Sending *)

(** C3: a session returned by [NewDualConn] holds the empty string as its
    local address, whatever address it was opened with, so a send with an
    empty [localIP] builds its packet with the empty string as source: the
    packet encoder is called on [""], and when it rejects that address the
    send fails without a write. *)
Theorem WriteToIP_empty_localIP_stays_empty
    (env : Env) (localAddr : string) (port : Z) (w w' : World) (c : DualConn) :
  NewDualConn env localAddr port w = (Ok c, w') ->
  localIP c = ""
  ∧ sourceIP c "" = ""
  ∧ ∀ (payload : bytes) (remoteIP : string) (localPort remotePort : Z)
      (inner : error) (w2 : World),
      EncodeIPPacket env "" remoteIP localPort remotePort payload 64 0 0
      = Err inner ->
      WriteToIP env c payload "" remoteIP localPort remotePort w2
      = ((0, Some (Errorf "failed to encode IP packet: " inner)), w2).
Proof.
  intros Hrun. apply NewDualConn_success in Hrun as (filter & _ & -> & _).
  repeat split.
  intros payload remoteIP localPort remotePort inner w2 Henc.
  unfold WriteToIP, sourceIP. cbn [localIP ttl tos ipv4Flag].
  destruct (decide ("" = "")) as [_|Hne]; [|congruence].
  rewrite Henc. reflexivity.
Qed.

Lemma WriteToIP_empty_localIP_stays_empty_witness :
  ∃ c w', NewDualConn quiet "127.0.0.1" 40000 empty_world = (Ok c, w')
          ∧ sourceIP c "" = ""
          ∧ "127.0.0.1" ≠ "".
Proof.
  eexists _, (snd (NewDualConn quiet "127.0.0.1" 40000 empty_world)).
  assert (Hrun : NewDualConn quiet "127.0.0.1" 40000 empty_world
                 = (Ok {| sendConn := RawConn 0%nat; recvConn := UDPConn 1%nat;
                          localIP := ""; timeout := 0; tos := 0; ttl := 64;
                          ipv4Flag := 0 |},
                    snd (NewDualConn quiet "127.0.0.1" 40000 empty_world)))
    by (vm_compute; reflexivity).
  split; [exact Hrun|]. split; [|discriminate].
  exact (proj1 (proj2 (WriteToIP_empty_localIP_stays_empty
                         quiet "127.0.0.1" 40000 empty_world _ _ Hrun))).
Defined.

(** The send of the example program on a session opened on 127.0.0.1: with
    the address given it writes the packet, with the empty address it
    fails in the packet encoder. *)
Example WriteToIP_on_opened_session :
  let (r, w1) := NewDualConn quiet "127.0.0.1" 40000 empty_world in
  match r with
  | Err _ => False
  | Ok c =>
      fst (WriteToIP quiet c [1; 2; 3] "127.0.0.1" "127.0.0.1" 20000 30000 w1)
      = (3, None)
      ∧ fst (WriteToIP quiet c [1; 2; 3] "" "127.0.0.1" 20000 30000 w1)
        = (0, Some (Errorf "failed to encode IP packet: "
                      (ExtError "invalid source address")))
  end.
Proof. vm_compute. split; reflexivity. Qed.

(** C4: when [WriteToIP] returns an error, the byte count is 0 and the
    error wraps its cause under one of two prefixes: the packet encoder's
    error under "failed to encode IP packet: ", in which case no call was
    made on the socket, or the raw socket's write error under
    "failed to write to IP: ".  The messages of the two kinds are never
    equal, whatever the causes. *)
Theorem WriteToIP_error_kinds
    (env : Env) (c : DualConn) (payload : bytes) (localIP' remoteIP : string)
    (localPort remotePort : Z) (w w' : World) (n : Z) (e : error) :
  WriteToIP env c payload localIP' remoteIP localPort remotePort w
  = ((n, Some e), w') ->
  n = 0
  ∧ ((∃ inner,
        EncodeIPPacket env (sourceIP c localIP') remoteIP localPort remotePort
          payload (ttl c) (tos c) (ipv4Flag c) = Err inner
        ∧ e = Errorf "failed to encode IP packet: " inner
        ∧ w' = w)
     ∨ (∃ data inner w1,
          EncodeIPPacket env (sourceIP c localIP') remoteIP localPort remotePort
            payload (ttl c) (tos c) (ipv4Flag c) = Ok data
          ∧ snd (writeToIP_res env w1 (sendConn c) data remoteIP) = Some inner
          ∧ e = Errorf "failed to write to IP: " inner
          ∧ w' = record_call (CWriteToIP (sendConn c) data remoteIP) w1))
  ∧ (∀ e1 e2 : error,
       Error (Errorf "failed to encode IP packet: " e1)
       ≠ Error (Errorf "failed to write to IP: " e2)).
Proof.
  intros Hrun. unfold WriteToIP in Hrun.
  destruct (EncodeIPPacket env (sourceIP c localIP') remoteIP localPort
              remotePort payload (ttl c) (tos c) (ipv4Flag c))
    as [data|inner] eqn:Henc.
  - unfold bind, ret, RawWriteToIP in Hrun.
    destruct (0 <? timeout c);
      [unfold SetDeadline in Hrun | ];
      match type of Hrun with
      | context [writeToIP_res env ?w1 _ _ _] =>
          destruct (writeToIP_res env w1 (sendConn c) data remoteIP)
            as [m [werr|]] eqn:Hwrite;
          simplify_eq;
          (split; [reflexivity|]); (split; [|cbn; discriminate]);
          right; exists data, werr, w1; rewrite Hwrite;
          repeat split
      end.
  - unfold ret in Hrun. simplify_eq.
    split; [reflexivity|]. split; [|cbn; discriminate].
    left. exists inner. repeat split.
Qed.

Lemma WriteToIP_error_kinds_witness :
  let c := {| sendConn := RawConn 0%nat; recvConn := UDPConn 1%nat;
              localIP := ""; timeout := 5; tos := 0; ttl := 64;
              ipv4Flag := 0 |} in
  fst (WriteToIP unreachable c [1; 2; 3] "10.0.0.1" "10.0.0.2" 20000 30000
         empty_world)
  = (0, Some (Errorf "failed to write to IP: "
                (ExtError "sendto: network is unreachable")))
  ∧ 0 = 0.
Proof.
  intros c. split; [vm_compute; reflexivity|].
  exact (proj1 (WriteToIP_error_kinds unreachable c [1; 2; 3] "10.0.0.1"
                  "10.0.0.2" 20000 30000 empty_world
                  (snd (WriteToIP unreachable c [1; 2; 3] "10.0.0.1"
                          "10.0.0.2" 20000 30000 empty_world))
                  0 (Errorf "failed to write to IP: "
                       (ExtError "sendto: network is unreachable"))
                  eq_refl)).
Defined.

(** ** Filters *)

(** What [RawConnSetBPF] does on a program that has an instruction. *)
Lemma RawConnSetBPF_nonempty
    (env : Env) (c : conn) (filter : list RawInstruction) (w : World) :
  filter ≠ [] ->
  RawConnSetBPF env c filter w
  = (Returns (setBPF_err env w c filter), record_call (CSetBPF c filter) w).
Proof. intros Hne. destruct filter; [contradiction | reflexivity]. Qed.

(** When [RawConnSetBPF] returns, the program had an instruction and the
    result is the one of the installation. *)
Lemma RawConnSetBPF_returns
    (env : Env) (c : conn) (filter : list RawInstruction) (w w' : World)
    (r : option error) :
  RawConnSetBPF env c filter w = (Returns r, w') ->
  filter ≠ [] ∧ r = setBPF_err env w c filter
  ∧ w' = record_call (CSetBPF c filter) w.
Proof.
  destruct filter as [|ins filter]; intros Hrun.
  - discriminate Hrun.
  - unfold RawConnSetBPF, bind, ret, SetBPF in Hrun. simplify_eq.
    repeat split. discriminate.
Qed.

(** C7, as the code has it: [SetBBFExpr] hands the expression to the
    external compiler, whose one result is a filter program.  When that
    program has an instruction, [SetBBFExpr] installs it on the send
    socket, as [SetBBF] does, and returns the result of the installation
    unchanged.  When the compiler panics or yields the empty program,
    [SetBBFExpr] does not return and makes no call.  So a result of
    [SetBBFExpr] is always the result of an installation: where a
    compiler that reports errors fails with [e], [SetBBFExpr] returns [e]
    only if the installation of the program it was handed reported [e]. *)
Theorem SetBBFExpr_returns_install_result
    (env : Env) (c : DualConn) (expr : string) (w : World) :
  (∀ (r : option error) (w' : World),
     SetBBFExpr env c expr w = (Returns r, w') ->
     ∃ filter,
       ParseTcpdumpFitlerData env expr = Returns filter
       ∧ filter ≠ []
       ∧ r = setBPF_err env w (sendConn c) filter
       ∧ w' = record_call (CSetBPF (sendConn c) filter) w)
  ∧ (∀ filter,
       ParseTcpdumpFitlerData env expr = Returns filter ->
       filter ≠ [] ->
       SetBBFExpr env c expr w
       = (Returns (setBPF_err env w (sendConn c) filter),
          record_call (CSetBPF (sendConn c) filter) w)
       ∧ SetBBFExpr env c expr w = SetBBF env c filter w)
  ∧ (ParseTcpdumpFitlerData env expr = Panics
     ∨ ParseTcpdumpFitlerData env expr = Returns [] ->
     SetBBFExpr env c expr w = (Panics, w))
  ∧ (∀ (compile : spec_compiler) (e : error),
       stands_for (ParseTcpdumpFitlerData env) compile ->
       compile expr = Err e ->
       fst (SetBBFExpr env c expr w) = Returns (Some e) ->
       ∃ filter,
         ParseTcpdumpFitlerData env expr = Returns filter
         ∧ filter ≠ []
         ∧ setBPF_err env w (sendConn c) filter = Some e).
Proof.
  assert (Hret : ∀ (r : option error) (w' : World),
            SetBBFExpr env c expr w = (Returns r, w') ->
            ∃ filter,
              ParseTcpdumpFitlerData env expr = Returns filter
              ∧ filter ≠ []
              ∧ r = setBPF_err env w (sendConn c) filter
              ∧ w' = record_call (CSetBPF (sendConn c) filter) w).
  { intros r w' Hrun. unfold SetBBFExpr in Hrun.
    destruct (ParseTcpdumpFitlerData env expr) as [filter|];
      [|discriminate Hrun].
    apply RawConnSetBPF_returns in Hrun as (Hne & -> & ->).
    exists filter. repeat split. exact Hne. }
  split; [exact Hret|]. split; [|split].
  - intros filter Hparse Hne. unfold SetBBFExpr, SetBBF. rewrite Hparse.
    split; [apply RawConnSetBPF_nonempty; exact Hne | reflexivity].
  - intros [Hparse|Hparse]; unfold SetBBFExpr; rewrite Hparse; reflexivity.
  - intros compile e _ _ Hfst.
    destruct (SetBBFExpr env c expr w) as [o w'] eqn:Hrun.
    cbn [fst] in Hfst. subst o.
    destruct (Hret _ _ eq_refl) as (filter & Hparse & Hne & Herr & _).
    exists filter. repeat split; [exact Hparse | exact Hne | ].
    symmetry. exact Herr.
Qed.

Lemma SetBBFExpr_returns_install_result_witness :
  let c := {| sendConn := RawConn 0%nat; recvConn := UDPConn 1%nat;
              localIP := ""; timeout := 0; tos := 0; ttl := 64;
              ipv4Flag := 0 |} in
  let env := with_compiler quiet (udp_only_parse (Returns []))
               (Some (ExtError "setsockopt: invalid argument")) in
  SetBBFExpr env c "udp" empty_world
  = (Returns (Some (ExtError "setsockopt: invalid argument")),
     record_call (CSetBPF (RawConn 0%nat) udp_program) empty_world)
  ∧ SetBBFExpr env c "udp and port (" empty_world = (Panics, empty_world).
Proof.
  intros c env. split.
  - apply (proj1 (proj2 (SetBBFExpr_returns_install_result env c "udp"
                           empty_world)) udp_program eq_refl).
    discriminate.
  - apply (proj1 (proj2 (proj2 (SetBBFExpr_returns_install_result env c
                                  "udp and port (" empty_world)))).
    right. reflexivity.
Defined.

(** C7, as stated, fails.  [udp_only] fails on "udp and port (" with a
    syntax error.  Whatever the function with the one result does there
    (it panics, it returns the empty program, or it returns a program,
    the installation of which succeeds or is refused), it stands for the
    compiler, and [SetBBFExpr] does not return the syntax error: it does
    not return at all, or it returns the result of the installation. *)
Lemma SetBBFExpr_no_compiler_error :
  let c := {| sendConn := RawConn 0%nat; recvConn := UDPConn 1%nat;
              localIP := ""; timeout := 0; tos := 0; ttl := 64;
              ipv4Flag := 0 |} in
  let refused := Some (ExtError "setsockopt: invalid argument") in
  let panics := with_compiler quiet (udp_only_parse Panics) None in
  let empty := with_compiler quiet (udp_only_parse (Returns [])) None in
  let partial :=
    with_compiler quiet (udp_only_parse (Returns [mkRaw 6 0 0 0])) None in
  let invalid :=
    with_compiler quiet (udp_only_parse (Returns [mkRaw 21 0 9 17])) refused in
  udp_only "udp and port (" = Err (ExtError "syntax error")
  ∧ (stands_for (ParseTcpdumpFitlerData panics) udp_only
     ∧ fst (SetBBFExpr panics c "udp and port (" empty_world) = Panics
     ∧ ¬ propagates_compiler_errors panics udp_only)
  ∧ (stands_for (ParseTcpdumpFitlerData empty) udp_only
     ∧ fst (SetBBFExpr empty c "udp and port (" empty_world) = Panics
     ∧ ¬ propagates_compiler_errors empty udp_only)
  ∧ (stands_for (ParseTcpdumpFitlerData partial) udp_only
     ∧ fst (SetBBFExpr partial c "udp and port (" empty_world) = Returns None
     ∧ ¬ propagates_compiler_errors partial udp_only)
  ∧ (stands_for (ParseTcpdumpFitlerData invalid) udp_only
     ∧ fst (SetBBFExpr invalid c "udp and port (" empty_world)
       = Returns refused
     ∧ ¬ propagates_compiler_errors invalid udp_only).
Proof.
  intros c refused panics empty partial invalid.
  assert (Hstands : ∀ on_failure install,
            stands_for
              (ParseTcpdumpFitlerData
                 (with_compiler quiet (udp_only_parse on_failure) install))
              udp_only).
  { intros on_failure install expr prog Hok. cbn [ParseTcpdumpFitlerData
      with_compiler]. unfold udp_only_parse. rewrite Hok. reflexivity. }
  split; [reflexivity|].
  repeat split; try apply Hstands.
  all: intros Hclaim;
    specialize (Hclaim c "udp and port (" empty_world
                  (ExtError "syntax error") eq_refl);
    vm_compute in Hclaim; discriminate Hclaim.
Qed.

(** On the expression the compiler knows, [SetBBFExpr] installs the
    compiler's program in each of these environments. *)
Example SetBBFExpr_on_a_valid_expression :
  let c := {| sendConn := RawConn 0%nat; recvConn := UDPConn 1%nat;
              localIP := ""; timeout := 0; tos := 0; ttl := 64;
              ipv4Flag := 0 |} in
  SetBBFExpr (with_compiler quiet (udp_only_parse Panics) None) c "udp"
    empty_world
  = (Returns None, record_call (CSetBPF (RawConn 0%nat) udp_program) empty_world).
Proof. reflexivity. Qed.

(** ** Closing *)

(** C5: [Close] calls [Close] on the raw send connection, then on the
    receive connection, in that order and whatever the first call
    reports, and returns what the second call reports; both sockets are
    released. *)
Theorem Close_closes_both (env : Env) (c : DualConn) (w : World) :
  let w1 := {| opened := opened w ∖ {[fd_of (sendConn c)]};
               history := history w ++ [CClose (sendConn c)] |} in
  Close env c w
  = (close_err env w1 (recvConn c),
     {| opened := opened w ∖ {[fd_of (sendConn c)]} ∖ {[fd_of (recvConn c)]};
        history := history w ++ [CClose (sendConn c); CClose (recvConn c)] |}).
Proof.
  intros w1. subst w1. run_calls. rewrite <- app_assoc. reflexivity.
Qed.

(** [Close] when closing the send socket fails and closing the receive
    socket succeeds: both calls are made and the result is nil. *)
Example Close_after_send_close_failure :
  let env := {| listenPacket_err := listenPacket_err quiet;
                newRawConn_err := newRawConn_err quiet;
                Assemble := Assemble quiet;
                setBPF_err := setBPF_err quiet;
                listenUDP_err := listenUDP_err quiet;
                close_err := fun _ c =>
                  match c with
                  | RawConn _ => Some (ExtError "close: input/output error")
                  | _ => None
                  end;
                now := now quiet;
                setDeadline_err := setDeadline_err quiet;
                writeToIP_res := writeToIP_res quiet;
                EncodeIPPacket := EncodeIPPacket quiet;
                ParseTcpdumpFitlerData := ParseTcpdumpFitlerData quiet |} in
  let (r, w1) := NewDualConn env "127.0.0.1" 40000 empty_world in
  match r with
  | Err _ => False
  | Ok c =>
      fst (Close env c w1) = None
      ∧ opened (snd (Close env c w1)) = ∅
      ∧ drop 4 (history (snd (Close env c w1)))
        = [CClose (RawConn 0%nat); CClose (UDPConn 1%nat)]
  end.
Proof. vm_compute. repeat split. Qed.

(** ** Configuration *)

(** C10: each setter changes its own field to the value given and leaves
    every other field of the session, the two connections included, as it
    was.  The setters are total functions on sessions: they have no error
    result and touch no socket. *)
Theorem setters_change_one_field (c : DualConn) (v : Z) :
  SetTimeout c v
  = {| sendConn := sendConn c; recvConn := recvConn c; localIP := localIP c;
       timeout := v; tos := tos c; ttl := ttl c; ipv4Flag := ipv4Flag c |}
  ∧ SetTOS c v
    = {| sendConn := sendConn c; recvConn := recvConn c; localIP := localIP c;
         timeout := timeout c; tos := v; ttl := ttl c; ipv4Flag := ipv4Flag c |}
  ∧ SetTTL c v
    = {| sendConn := sendConn c; recvConn := recvConn c; localIP := localIP c;
         timeout := timeout c; tos := tos c; ttl := v; ipv4Flag := ipv4Flag c |}
  ∧ SetIPv4Flag c v
    = {| sendConn := sendConn c; recvConn := recvConn c; localIP := localIP c;
         timeout := timeout c; tos := tos c; ttl := ttl c; ipv4Flag := v |}
  ∧ Forall (fun set : DualConn -> Z -> DualConn =>
              sendConn (set c v) = sendConn c
              ∧ recvConn (set c v) = recvConn c
              ∧ localIP (set c v) = localIP c)
       [SetTimeout; SetTOS; SetTTL; SetIPv4Flag].
Proof.
  repeat split. repeat constructor.
Qed.

(** ** The correlation header *)

Lemma be_bytes_length (n : nat) (v : Z) : length (be_bytes n v) = n.
Proof. induction n as [|n IH]; cbn; [reflexivity | by rewrite IH]. Qed.

(** Shifting a byte out and back in, then putting the byte back, gives
    the number there was. *)
Lemma shift_in_low_byte (x : Z) :
  0 <= x -> Z.lor (Z.shiftl (Z.shiftr x 8) 8) (Z.land x 255) = x.
Proof.
  intros Hx. apply Z.bits_inj'. intros i Hi.
  rewrite Z.lor_spec, Z.land_spec, (Z.shiftl_spec _ _ _ Hi).
  change 255 with (Z.ones 8).
  destruct (Z.ltb_spec i 8) as [Hlt|Hge].
  - rewrite (Z.testbit_neg_r _ (i - 8)) by lia.
    rewrite Z.ones_spec_low by lia. cbn. apply andb_true_r.
  - rewrite Z.shiftr_spec by lia.
    rewrite Z.ones_spec_high by lia.
    rewrite andb_false_r, orb_false_r. f_equal. lia.
Qed.

Lemma be_value_from (k : nat) (v : Z) :
  0 <= v ->
  fold_left (fun acc b => Z.lor (Z.shiftl acc 8) b) (be_bytes k v)
    (Z.shiftr v (8 * Z.of_nat k))
  = v.
Proof.
  intros Hv. induction k as [|k IH].
  - cbn. apply Z.shiftr_0_r.
  - cbn [be_bytes fold_left].
    replace (8 * Z.of_nat (S k)) with (8 * Z.of_nat k + 8) by lia.
    rewrite <- Z.shiftr_shiftr by lia.
    rewrite shift_in_low_byte by (apply Z.shiftr_nonneg; exact Hv).
    exact IH.
Qed.

(** A field of [n] bytes read back is the value written, when the value
    fits in [n] bytes. *)
Lemma be_value_be_bytes (n : nat) (v : Z) :
  0 <= v < 2 ^ (8 * Z.of_nat n) -> be_value (be_bytes n v) = v.
Proof.
  intros [Hlo Hhi]. unfold be_value.
  rewrite <- (be_value_from n v Hlo) at 2. f_equal.
  symmetry. rewrite Z.shiftr_div_pow2 by lia. apply Z.div_small. lia.
Qed.

(** Where the header fields lie in an encoded buffer: timestamp at offset
    0, sequence at offset 8, payload kind at offset 20, the filler from
    offset 21 on. *)
Lemma header_layout (filler : Z -> nat -> byte)
    (timestamp sequence sourcePort destPort payloadKind : Z) (rest : bytes) :
  let buffer :=
    be_bytes 8 timestamp ++ be_bytes 8 sequence ++ be_bytes 2 sourcePort
      ++ be_bytes 2 destPort ++ be_bytes 1 payloadKind ++ rest in
  take 8 buffer = be_bytes 8 timestamp
  ∧ take 8 (drop 8 buffer) = be_bytes 8 sequence
  ∧ take 1 (drop 20 buffer) = be_bytes 1 payloadKind
  ∧ length buffer = (headerSize + length rest)%nat.
Proof.
  intros buffer. subst buffer. cbn [be_bytes app take drop length].
  repeat split.
Qed.

(** C2: for a 64-bit timestamp and sequence, 16-bit ports, an 8-bit
    payload kind and a buffer of at least 21 bytes, encoding succeeds,
    keeps the length of the buffer, and decoding the encoded buffer gives
    back the timestamp, the sequence and the payload kind, whatever the
    fill rule. *)
Theorem DecodePayload_EncodePayloadWithPort
    (filler : Z -> nat -> byte)
    (timestamp sequence sourcePort destPort payloadKind : Z) (payload : bytes) :
  0 <= timestamp < 2 ^ 64 ->
  0 <= sequence < 2 ^ 64 ->
  0 <= sourcePort < 2 ^ 16 ->
  0 <= destPort < 2 ^ 16 ->
  0 <= payloadKind < 2 ^ 8 ->
  (21 <= length payload)%nat ->
  ∃ buffer : bytes,
    EncodePayloadWithPort filler timestamp sequence sourcePort destPort
      payload payloadKind = Ok buffer
    ∧ length buffer = length payload
    ∧ DecodePayload buffer = Ok (timestamp, sequence, payloadKind).
Proof.
  intros Hts Hseq _ _ Hkind Hlen. unfold EncodePayloadWithPort.
  destruct (Nat.ltb_spec (length payload) headerSize) as [Hshort|_];
    [unfold headerSize in Hshort; lia|].
  eexists. split; [reflexivity|].
  destruct (header_layout filler timestamp sequence sourcePort destPort
              payloadKind
              (map (filler payloadKind)
                 (seq headerSize (length payload - headerSize))))
    as (Hf1 & Hf2 & Hf3 & Hsize).
  rewrite length_map, length_seq in Hsize.
  split; [rewrite Hsize; unfold headerSize; lia|].
  unfold DecodePayload.
  destruct (Nat.ltb_spec
              (length (be_bytes 8 timestamp ++ be_bytes 8 sequence
                         ++ be_bytes 2 sourcePort ++ be_bytes 2 destPort
                         ++ be_bytes 1 payloadKind
                         ++ map (filler payloadKind)
                              (seq headerSize (length payload - headerSize))))
              headerSize) as [Hshort|_]; [lia|].
  rewrite Hf1, Hf2, Hf3.
  rewrite !be_value_be_bytes by assumption. reflexivity.
Qed.

Lemma DecodePayload_EncodePayloadWithPort_witness :
  ∃ buffer : bytes,
    EncodePayloadWithPort (fun kind _ => kind) 1000 1 100 200
      (MakePayload (fun kind _ => kind) 1 64) 1 = Ok buffer
    ∧ length buffer = length (MakePayload (fun kind _ => kind) 1 64)
    ∧ DecodePayload buffer = Ok (1000, 1, 1).
Proof.
  apply (DecodePayload_EncodePayloadWithPort (fun kind _ => kind)
           1000 1 100 200 1 (MakePayload (fun kind _ => kind) 1 64)).
  all: try (split; [lia | reflexivity]).
  vm_compute. lia.
Defined.

(** Shorter buffers are refused by both directions. *)
Lemma codec_refuses_short_buffers
    (filler : Z -> nat -> byte)
    (timestamp sequence sourcePort destPort payloadKind : Z) (buffer : bytes) :
  (length buffer < 21)%nat ->
  (∃ e, EncodePayloadWithPort filler timestamp sequence sourcePort destPort
          buffer payloadKind = Err e)
  ∧ (∃ e, DecodePayload buffer = Err e).
Proof.
  intros Hshort. unfold EncodePayloadWithPort, DecodePayload.
  destruct (Nat.ltb_spec (length buffer) headerSize) as [_|Hlong];
    [eauto | unfold headerSize in Hlong; lia].
Qed.

Lemma same_bytes_S (a b : bytes) (i n : nat) :
  same_bytes a b i (S n)
  = match a !! i, b !! i with
    | Some x, Some y => (x =? y) && same_bytes a b (S i) n
    | _, _ => false
    end.
Proof. reflexivity. Qed.

(** The byte-wise loop finds the two ranges equal exactly when the slices
    are the same list. *)
Lemma same_bytes_slices (a b : bytes) (n i : nat) :
  (i + n <= length a)%nat -> (i + n <= length b)%nat ->
  same_bytes a b i n = true ↔ take n (drop i a) = take n (drop i b).
Proof.
  revert i. induction n as [|n IH]; intros i Ha Hb.
  - cbn. rewrite !take_0. split; reflexivity.
  - destruct (lookup_lt_is_Some_2 a i) as [x Hx]; [lia|].
    destruct (lookup_lt_is_Some_2 b i) as [y Hy]; [lia|].
    rewrite same_bytes_S, Hx, Hy.
    rewrite (drop_S a x i Hx), (drop_S b y i Hy). cbn [take].
    rewrite andb_true_iff, Z.eqb_eq, (IH (S i)) by lia.
    split.
    + intros [-> ->]. reflexivity.
    + intros Heq. injection Heq as -> ->. split; reflexivity.
Qed.

(** C9: on two buffers of at least [offset + len] bytes the comparison
    succeeds and answers true exactly when the slices
    [a[offset:offset+len]] and [b[offset:offset+len]] are equal; the answer
    stays the same when the first [offset] bytes of either buffer are
    replaced by any others; and on a buffer shorter than [offset + len]
    the comparison fails with an error. *)
Theorem ComparePayload_compares_body (a b : bytes) (offset len : nat) :
  ((offset + len <= length a)%nat -> (offset + len <= length b)%nat ->
   (∃ same : bool,
      ComparePayload a b offset len = Ok same
      ∧ (same = true ↔ take len (drop offset a) = take len (drop offset b)))
   ∧ (∀ ha hb : bytes,
        length ha = offset -> length hb = offset ->
        ComparePayload (ha ++ drop offset a) (hb ++ drop offset b) offset len
        = ComparePayload a b offset len))
  ∧ ((length a < offset + len)%nat ∨ (length b < offset + len)%nat ->
     ∃ e : error, ComparePayload a b offset len = Err e).
Proof.
  split.
  - intros Ha Hb.
    assert (Hlong : ∀ a' b' : bytes,
              (offset + len <= length a')%nat ->
              (offset + len <= length b')%nat ->
              ComparePayload a' b' offset len
              = Ok (same_bytes a' b' offset len)).
    { intros a' b' Ha' Hb'. unfold ComparePayload.
      destruct (Nat.ltb_spec (length a') (offset + len)); [lia|].
      destruct (Nat.ltb_spec (length b') (offset + len)); [lia|].
      reflexivity. }
    split.
    + exists (same_bytes a b offset len). split; [apply Hlong; assumption|].
      apply same_bytes_slices; assumption.
    + intros ha hb Hha Hhb.
      rewrite !Hlong; try assumption;
        try (rewrite length_app, length_drop; lia).
      f_equal.
      pose proof (same_bytes_slices a b len offset Ha Hb) as Hab.
      pose proof (same_bytes_slices (ha ++ drop offset a) (hb ++ drop offset b)
                    len offset) as Hab'.
      rewrite !drop_app_length' in Hab' by (symmetry; assumption).
      specialize (Hab' ltac:(rewrite length_app, length_drop; lia)
                       ltac:(rewrite length_app, length_drop; lia)).
      destruct (same_bytes a b offset len),
        (same_bytes (ha ++ drop offset a) (hb ++ drop offset b) offset len);
        try reflexivity.
      * apply Hab', Hab. reflexivity.
      * symmetry. apply Hab, Hab'. reflexivity.
  - intros Hshort. unfold ComparePayload.
    destruct (Nat.ltb_spec (length a) (offset + len));
      destruct (Nat.ltb_spec (length b) (offset + len));
      cbn; eauto.
    lia.
Qed.

Lemma ComparePayload_compares_body_witness :
  ComparePayload [1; 2; 3; 4] [9; 2; 3; 5] 1 2 = Ok true
  ∧ ComparePayload ([7] ++ drop 1 [1; 2; 3; 4]) ([8] ++ drop 1 [9; 2; 3; 5]) 1 2
    = ComparePayload [1; 2; 3; 4] [9; 2; 3; 5] 1 2
  ∧ ∃ e, ComparePayload [1; 2; 3; 4] [9; 2; 3] 1 3 = Err e.
Proof.
  split; [reflexivity|]. split.
  - apply (proj1 (ComparePayload_compares_body [1; 2; 3; 4] [9; 2; 3; 5] 1 2));
      cbn; lia.
  - apply (proj2 (ComparePayload_compares_body [1; 2; 3; 4] [9; 2; 3] 1 3)).
    right. cbn. lia.
Defined.

(** * Further properties of the session *)

(** ** Opening and closing *)

(** X1: a successful [NewDualConn] has opened exactly two sockets that were
    not open before, one under the raw send connection and another one
    under the UDP receive connection. *)
Theorem NewDualConn_opens_two_sockets
    (env : Env) (localAddr : string) (port : Z) (w w' : World) (c : DualConn) :
  NewDualConn env localAddr port w = (Ok c, w') ->
  ∃ fd fd' : handle,
    sendConn c = RawConn fd ∧ recvConn c = UDPConn fd'
    ∧ fd ≠ fd' ∧ (fd ∉ opened w) ∧ (fd' ∉ opened w)
    ∧ opened w' = {[fd']} ∪ ({[fd]} ∪ opened w).
Proof.
  intros Hrun.
  apply NewDualConn_success in Hrun as (filter & _ & -> & _ & Hopen).
  pose proof (is_fresh (opened w)) as Hfd.
  pose proof (is_fresh ({[fresh (opened w)]} ∪ opened w)) as Hfd'.
  rewrite elem_of_union, elem_of_singleton in Hfd'.
  eexists _, _. repeat split; [| exact Hfd | | exact Hopen].
  - intros Heq. apply Hfd'. left. symmetry. exact Heq.
  - intros Hin. apply Hfd'. right. exact Hin.
Qed.

Lemma NewDualConn_opens_two_sockets_witness :
  ∃ fd fd' : handle,
    fd ≠ fd'
    ∧ opened (snd (NewDualConn quiet "127.0.0.1" 40000 empty_world))
      = {[fd']} ∪ ({[fd]} ∪ ∅).
Proof.
  destruct (NewDualConn_opens_two_sockets quiet "127.0.0.1" 40000 empty_world
              (snd (NewDualConn quiet "127.0.0.1" 40000 empty_world))
              {| sendConn := RawConn 0%nat; recvConn := UDPConn 1%nat;
                 localIP := ""; timeout := 0; tos := 0; ttl := 64;
                 ipv4Flag := 0 |})
    as (fd & fd' & _ & _ & Hne & _ & _ & Hopen); [vm_compute; reflexivity|].
  exists fd, fd'. split; [exact Hne | exact Hopen].
Defined.

(** X2: [Close] on a session returned by [NewDualConn] leaves open exactly
    the sockets that were open before the session was opened, also when
    the library reports an error for one or both of the two closes. *)
Theorem NewDualConn_then_Close_releases_both
    (env : Env) (localAddr : string) (port : Z) (w w1 : World) (c : DualConn) :
  NewDualConn env localAddr port w = (Ok c, w1) ->
  opened (snd (Close env c w1)) = opened w.
Proof.
  intros Hrun.
  apply NewDualConn_success in Hrun as (filter & _ & -> & _ & Hopen).
  pose proof (is_fresh (opened w)) as Hfd.
  pose proof (is_fresh ({[fresh (opened w)]} ∪ opened w)) as Hfd'.
  rewrite elem_of_union, elem_of_singleton in Hfd'.
  unfold Close, bind, CloseConn. cbn [snd opened sendConn recvConn fd_of].
  rewrite Hopen. apply set_eq. intros x.
  rewrite !elem_of_difference, !elem_of_union, !elem_of_singleton.
  split; [tauto|]. intros Hx.
  repeat split; [tauto | |]; intros ->; tauto.
Qed.

Lemma NewDualConn_then_Close_releases_both_witness :
  opened (snd (Close close_fails
                 {| sendConn := RawConn 0%nat; recvConn := UDPConn 1%nat;
                    localIP := ""; timeout := 0; tos := 0; ttl := 64;
                    ipv4Flag := 0 |}
                 (snd (NewDualConn close_fails "127.0.0.1" 40000 empty_world))))
  = opened empty_world.
Proof.
  apply (NewDualConn_then_Close_releases_both close_fails "127.0.0.1" 40000).
  vm_compute; reflexivity.
Defined.

(** X3: the error [NewDualConn] returns is the error of the call that
    failed, as that call reported it and not wrapped: the one of
    [net.ListenPacket], of [ipv4.NewRawConn], of [bpf.Assemble], of
    [SetBPF] or of [net.ListenUDP], each asked in the world the calls
    before it left. *)
Theorem NewDualConn_returns_the_cause
    (env : Env) (localAddr : string) (port : Z) (w w' : World) (e : error) :
  NewDualConn env localAddr port w = (Err e, w') ->
  let fd := fresh (opened w) in
  let w1 := {| opened := {[fd]} ∪ opened w;
               history := history w ++ [CListenPacket "ip:udp" localAddr] |} in
  let w2 := record_call (CNewRawConn (PacketConn fd)) w1 in
  listenPacket_err env w "ip:udp" localAddr = Some e
  ∨ newRawConn_err env w1 (PacketConn fd) = Some e
  ∨ Assemble env createDropAllBPF = Err e
  ∨ ∃ filter,
      Assemble env createDropAllBPF = Ok filter
      ∧ (setBPF_err env w2 (RawConn fd) filter = Some e
         ∨ listenUDP_err env (record_call (CSetBPF (RawConn fd) filter) w2)
             "udp" localAddr port = Some e).
Proof.
  intros Hrun fd w1 w2. subst fd w1 w2. run_calls.
  repeat next_outcome; simplify_eq.
  - (* net.ListenPacket *) left. reflexivity.
  - (* ipv4.NewRawConn *) right. left. reflexivity.
  - (* SetBPF *)
    right. right. right. eexists. split; [reflexivity|]. left. assumption.
  - (* net.ListenUDP *)
    right. right. right. eexists. split; [reflexivity|]. right. assumption.
  - (* bpf.Assemble *) right. right. left. reflexivity.
Qed.

Lemma NewDualConn_returns_the_cause_witness :
  listenUDP_err port_in_use empty_world "udp" "127.0.0.1" 40000
  = Some (ExtError "bind: address already in use")
  ∧ ∃ filter, Assemble port_in_use createDropAllBPF = Ok filter.
Proof.
  split; [reflexivity|].
  destruct (NewDualConn_returns_the_cause port_in_use "127.0.0.1" 40000
              empty_world
              (snd (NewDualConn port_in_use "127.0.0.1" 40000 empty_world))
              (ExtError "bind: address already in use"))
    as [Hc|[Hc|[Hc|(filter & Hasm & _)]]];
    [vm_compute; reflexivity | discriminate Hc | discriminate Hc
    | discriminate Hc | exists filter; exact Hasm].
Defined.

(** X4: in every run of [NewDualConn], failed or not, the UDP receive
    socket is asked for only after the drop-all filter was assembled and
    its installation on the raw socket succeeded; the calls up to the bind
    are then [ListenPacket], [NewRawConn], [SetBPF], [ListenUDP]. *)
Theorem NewDualConn_binds_after_filter
    (env : Env) (localAddr : string) (port : Z) (w w' : World)
    (r : result DualConn) (new : list call) :
  NewDualConn env localAddr port w = (r, w') ->
  history w' = history w ++ new ->
  CListenUDP "udp" localAddr port ∈ new ->
  let fd := fresh (opened w) in
  let w2 := record_call (CNewRawConn (PacketConn fd))
              {| opened := {[fd]} ∪ opened w;
                 history := history w ++ [CListenPacket "ip:udp" localAddr] |} in
  ∃ filter,
    Assemble env createDropAllBPF = Ok filter
    ∧ setBPF_err env w2 (RawConn fd) filter = None
    ∧ take 4 new
      = [CListenPacket "ip:udp" localAddr; CNewRawConn (PacketConn fd);
         CSetBPF (RawConn fd) filter; CListenUDP "udp" localAddr port].
Proof.
  intros Hrun Hhist Hin fd w2. subst fd w2. run_calls.
  repeat next_outcome; simplify_eq; cbn [history] in Hhist;
    rewrite <- ?app_assoc in Hhist; apply app_inv_head in Hhist;
    subst new; cbn [app] in *.
  - absent_call Hin.
  - absent_call Hin.
  - absent_call Hin.
  - eexists. repeat split. assumption.
  - eexists. repeat split. assumption.
  - absent_call Hin.
Qed.

Lemma NewDualConn_binds_after_filter_witness :
  ∃ filter,
    Assemble port_in_use createDropAllBPF = Ok filter
    ∧ take 4 (history (snd (NewDualConn port_in_use "127.0.0.1" 40000
                              empty_world)))
      = [CListenPacket "ip:udp" "127.0.0.1"; CNewRawConn (PacketConn 0%nat);
         CSetBPF (RawConn 0%nat) filter; CListenUDP "udp" "127.0.0.1" 40000].
Proof.
  destruct (NewDualConn_binds_after_filter port_in_use "127.0.0.1" 40000
              empty_world
              (snd (NewDualConn port_in_use "127.0.0.1" 40000 empty_world))
              (Err (ExtError "bind: address already in use"))
              (history (snd (NewDualConn port_in_use "127.0.0.1" 40000
                               empty_world))))
    as (filter & Hasm & _ & Hcalls).
  - vm_compute; reflexivity.
  - reflexivity.
  - vm_compute. do 3 apply list_elem_of_further. apply list_elem_of_here.
  - exists filter. split; [exact Hasm|]. exact Hcalls.
Defined.

(** ** Sending *)

(** X5: a [WriteToIP] whose packet was encoded makes its calls on the raw
    send connection only: [SetDeadline] with the time of the call plus the
    timeout when the timeout is positive, no [SetDeadline] at all when it
    is zero or negative, then one [WriteToIP] with the encoded packet and
    the remote address.  It opens and closes no socket. *)
Theorem WriteToIP_calls
    (env : Env) (c : DualConn) (payload : bytes) (localIP' remoteIP : string)
    (localPort remotePort : Z) (w : World) (data : bytes) :
  EncodeIPPacket env (sourceIP c localIP') remoteIP localPort remotePort
    payload (ttl c) (tos c) (ipv4Flag c) = Ok data ->
  let w' := snd (WriteToIP env c payload localIP' remoteIP localPort
                   remotePort w) in
  opened w' = opened w
  ∧ history w'
    = history w
        ++ (if 0 <? timeout c
            then [CSetDeadline (sendConn c) (now env w + timeout c)]
            else [])
        ++ [CWriteToIP (sendConn c) data remoteIP].
Proof.
  intros Henc w'. subst w'. unfold WriteToIP. rewrite Henc.
  unfold bind, ret, SetDeadline, RawWriteToIP, record_call.
  destruct (0 <? timeout c); cbn [opened history fst snd].
  - destruct (writeToIP_res env _ (sendConn c) data remoteIP) as [n [err|]];
      cbn [snd opened history]; rewrite <- app_assoc; split; reflexivity.
  - destruct (writeToIP_res env w (sendConn c) data remoteIP) as [n [err|]];
      cbn [snd opened history]; split; reflexivity.
Qed.

Lemma WriteToIP_calls_witness :
  let c := {| sendConn := RawConn 0%nat; recvConn := UDPConn 1%nat;
              localIP := ""; timeout := 5; tos := 0; ttl := 64;
              ipv4Flag := 0 |} in
  history (snd (WriteToIP quiet c [1; 2; 3] "10.0.0.1" "10.0.0.2" 20000 30000
                  empty_world))
  = [CSetDeadline (RawConn 0%nat) 5; CWriteToIP (RawConn 0%nat) [1; 2; 3] "10.0.0.2"].
Proof.
  intros c.
  exact (proj2 (WriteToIP_calls quiet c [1; 2; 3] "10.0.0.1" "10.0.0.2"
                  20000 30000 empty_world [1; 2; 3] eq_refl)).
Defined.

(** X6: a [WriteToIP] that returns no error has encoded the packet and
    written it on the raw send connection, and the count it returns is the
    one that write reported. *)
Theorem WriteToIP_success
    (env : Env) (c : DualConn) (payload : bytes) (localIP' remoteIP : string)
    (localPort remotePort : Z) (w w' : World) (n : Z) :
  WriteToIP env c payload localIP' remoteIP localPort remotePort w
  = ((n, None), w') ->
  ∃ data w1,
    EncodeIPPacket env (sourceIP c localIP') remoteIP localPort remotePort
      payload (ttl c) (tos c) (ipv4Flag c) = Ok data
    ∧ writeToIP_res env w1 (sendConn c) data remoteIP = (n, None)
    ∧ w' = record_call (CWriteToIP (sendConn c) data remoteIP) w1
    ∧ (w1 = w
       ∨ w1 = record_call (CSetDeadline (sendConn c) (now env w + timeout c)) w).
Proof.
  intros Hrun. unfold WriteToIP in Hrun.
  destruct (EncodeIPPacket env (sourceIP c localIP') remoteIP localPort
              remotePort payload (ttl c) (tos c) (ipv4Flag c))
    as [data|inner] eqn:Henc; [|unfold ret in Hrun; discriminate Hrun].
  unfold bind, ret, RawWriteToIP in Hrun.
  destruct (0 <? timeout c);
    [unfold SetDeadline in Hrun | ];
    match type of Hrun with
    | context [writeToIP_res env ?w1 _ _ _] =>
        destruct (writeToIP_res env w1 (sendConn c) data remoteIP)
          as [m [werr|]] eqn:Hwrite;
        simplify_eq; exists data, w1; rewrite Hwrite
    end.
  - repeat split. right. reflexivity.
  - repeat split. left. reflexivity.
Qed.

Lemma WriteToIP_success_witness :
  let c := {| sendConn := RawConn 0%nat; recvConn := UDPConn 1%nat;
              localIP := ""; timeout := 0; tos := 0; ttl := 64;
              ipv4Flag := 0 |} in
  ∃ data w1,
    EncodeIPPacket quiet "10.0.0.1" "10.0.0.2" 20000 30000 [1; 2; 3] 64 0 0
    = Ok data
    ∧ writeToIP_res quiet w1 (RawConn 0%nat) data "10.0.0.2" = (3, None).
Proof.
  intros c.
  destruct (WriteToIP_success quiet c [1; 2; 3] "10.0.0.1" "10.0.0.2"
              20000 30000 empty_world
              (snd (WriteToIP quiet c [1; 2; 3] "10.0.0.1" "10.0.0.2"
                      20000 30000 empty_world))
              3 eq_refl)
    as (data & w1 & Henc & Hwrite & _).
  exists data, w1. split; [exact Henc | exact Hwrite].
Defined.

(** X7: [WriteToIP] ignores what [SetDeadline] reports: with any other
    outcome of [SetDeadline] the send returns the same result and leaves
    the same world. *)
Theorem WriteToIP_ignores_SetDeadline_error
    (env : Env) (f : World -> conn -> Z -> option error)
    (c : DualConn) (payload : bytes) (localIP' remoteIP : string)
    (localPort remotePort : Z) (w : World) :
  WriteToIP (with_setDeadline_err env f) c payload localIP' remoteIP
    localPort remotePort w
  = WriteToIP env c payload localIP' remoteIP localPort remotePort w.
Proof.
  unfold WriteToIP. cbn [EncodeIPPacket with_setDeadline_err].
  destruct (EncodeIPPacket env (sourceIP c localIP') remoteIP localPort
              remotePort payload (ttl c) (tos c) (ipv4Flag c));
    [|reflexivity].
  unfold bind, ret, SetDeadline, RawWriteToIP.
  destruct (0 <? timeout c); reflexivity.
Qed.

(** X8: a [localIP] argument that is not empty is the source address of
    the packet, whatever local address the session holds: two sessions
    that differ in their [localIP] field only send alike. *)
Theorem WriteToIP_explicit_localIP
    (env : Env) (c : DualConn) (other : string) (payload : bytes)
    (localIP' remoteIP : string) (localPort remotePort : Z) (w : World) :
  localIP' ≠ "" ->
  sourceIP c localIP' = localIP'
  ∧ WriteToIP env
      {| sendConn := sendConn c; recvConn := recvConn c; localIP := other;
         timeout := timeout c; tos := tos c; ttl := ttl c;
         ipv4Flag := ipv4Flag c |}
      payload localIP' remoteIP localPort remotePort w
    = WriteToIP env c payload localIP' remoteIP localPort remotePort w.
Proof.
  intros Hne. unfold WriteToIP, sourceIP. cbn [localIP ttl tos ipv4Flag
    timeout sendConn].
  destruct (decide (localIP' = "")) as [Heq|_]; [contradiction|].
  split; reflexivity.
Qed.

Lemma WriteToIP_explicit_localIP_witness :
  let c := {| sendConn := RawConn 0%nat; recvConn := UDPConn 1%nat;
              localIP := ""; timeout := 0; tos := 0; ttl := 64;
              ipv4Flag := 0 |} in
  sourceIP c "10.0.0.1" = "10.0.0.1".
Proof.
  intros c.
  exact (proj1 (WriteToIP_explicit_localIP quiet c "192.168.0.1" [1; 2; 3]
                  "10.0.0.1" "10.0.0.2" 20000 30000 empty_world
                  ltac:(discriminate))).
Defined.

(** X9: the values given to [SetTTL], [SetTOS] and [SetIPv4Flag] are the
    ones the next [WriteToIP] hands to the packet encoder: when the
    encoder accepts them, the packet written is the one encoded with
    them; when it rejects them, the send fails with the encoder's error
    and makes no call. *)
Theorem setters_take_effect_on_WriteToIP
    (env : Env) (c : DualConn) (ttl' tos' flag : Z) (payload : bytes)
    (localIP' remoteIP : string) (localPort remotePort : Z) (w : World) :
  let c' := SetIPv4Flag (SetTOS (SetTTL c ttl') tos') flag in
  (∀ data,
     EncodeIPPacket env (sourceIP c localIP') remoteIP localPort remotePort
       payload ttl' tos' flag = Ok data ->
     last (history (snd (WriteToIP env c' payload localIP' remoteIP
                           localPort remotePort w)))
     = Some (CWriteToIP (sendConn c) data remoteIP))
  ∧ (∀ inner,
       EncodeIPPacket env (sourceIP c localIP') remoteIP localPort remotePort
         payload ttl' tos' flag = Err inner ->
       WriteToIP env c' payload localIP' remoteIP localPort remotePort w
       = ((0, Some (Errorf "failed to encode IP packet: " inner)), w)).
Proof.
  intros c'. subst c'. split.
  - intros data Henc. unfold WriteToIP.
    change (sourceIP (SetIPv4Flag (SetTOS (SetTTL c ttl') tos') flag) localIP')
      with (sourceIP c localIP').
    cbn [SetIPv4Flag SetTOS SetTTL ttl tos ipv4Flag timeout sendConn].
    rewrite Henc.
    unfold bind, ret, SetDeadline, RawWriteToIP, record_call.
    destruct (0 <? timeout c); cbn [fst snd history];
      match goal with
      | |- context [writeToIP_res env ?w1 _ _ _] =>
          destruct (writeToIP_res env w1 (sendConn c) data remoteIP)
            as [n [err|]]
      end; cbn [snd history]; apply last_snoc.
  - intros inner Henc. unfold WriteToIP.
    change (sourceIP (SetIPv4Flag (SetTOS (SetTTL c ttl') tos') flag) localIP')
      with (sourceIP c localIP').
    cbn [SetIPv4Flag SetTOS SetTTL ttl tos ipv4Flag timeout sendConn].
    rewrite Henc. reflexivity.
Qed.

Lemma setters_take_effect_on_WriteToIP_witness :
  let c := {| sendConn := RawConn 0%nat; recvConn := UDPConn 1%nat;
              localIP := ""; timeout := 0; tos := 0; ttl := 64;
              ipv4Flag := 0 |} in
  last (history (snd (WriteToIP quiet (SetIPv4Flag (SetTOS (SetTTL c 1) 16) 2)
                        [1; 2; 3] "10.0.0.1" "10.0.0.2" 20000 30000
                        empty_world)))
  = Some (CWriteToIP (RawConn 0%nat) [1; 2; 3] "10.0.0.2").
Proof.
  intros c.
  exact (proj1 (setters_take_effect_on_WriteToIP quiet c 1 16 2 [1; 2; 3]
                  "10.0.0.1" "10.0.0.2" 20000 30000 empty_world)
           [1; 2; 3] eq_refl).
Defined.

(** ** Configuration *)

(** X10: setters of different fields commute, and of two calls of the same
    setter the later one decides: the session after a sequence of setter
    calls depends only on the last value given to each field. *)
Theorem setters_compose (c : DualConn) (a b : Z) :
  (SetTOS (SetTimeout c a) b = SetTimeout (SetTOS c b) a
   ∧ SetTTL (SetTimeout c a) b = SetTimeout (SetTTL c b) a
   ∧ SetIPv4Flag (SetTimeout c a) b = SetTimeout (SetIPv4Flag c b) a
   ∧ SetTTL (SetTOS c a) b = SetTOS (SetTTL c b) a
   ∧ SetIPv4Flag (SetTOS c a) b = SetTOS (SetIPv4Flag c b) a
   ∧ SetIPv4Flag (SetTTL c a) b = SetTTL (SetIPv4Flag c b) a)
  ∧ (SetTimeout (SetTimeout c a) b = SetTimeout c b
     ∧ SetTOS (SetTOS c a) b = SetTOS c b
     ∧ SetTTL (SetTTL c a) b = SetTTL c b
     ∧ SetIPv4Flag (SetIPv4Flag c a) b = SetIPv4Flag c b).
Proof. repeat split. Qed.

(** ** The local port of the example program *)

(** One round of the port counter from a port of the range: the next port,
    and 20000 again after 20999. *)
Lemma nextLocalPort_step (p : Z) :
  20000 <= p < 21000 ->
  nextLocalPort p = 20000 + (p - 20000 + 1) mod 1000.
Proof.
  intros Hp. unfold nextLocalPort. change (2 ^ 16) with 65536.
  rewrite (Z.mod_small (p + 1)) by lia.
  destruct (Z.eqb_spec (p + 1) 21000) as [Hwrap|Hnext].
  - replace (p - 20000 + 1) with 1000 by lia. reflexivity.
  - rewrite Z.mod_small by lia. lia.
Qed.

(** X11: the local port of the example program stays in 20000..20999:
    from a port of that range, the port after [k] rounds is
    [20000 + (p - 20000 + k) mod 1000]; it never reaches 21000, and after
    1000 rounds it is the port it started from. *)
Theorem nextLocalPort_cycle (p : Z) (k : nat) :
  20000 <= p < 21000 ->
  Nat.iter k nextLocalPort p = 20000 + (p - 20000 + Z.of_nat k) mod 1000
  ∧ 20000 <= Nat.iter k nextLocalPort p < 21000
  ∧ Nat.iter (k + 1000) nextLocalPort p = Nat.iter k nextLocalPort p.
Proof.
  intros Hp.
  assert (Hclosed : ∀ j : nat,
            Nat.iter j nextLocalPort p
            = 20000 + (p - 20000 + Z.of_nat j) mod 1000).
  { induction j as [|j IH].
    - change (Nat.iter 0 nextLocalPort p) with p.
      change (Z.of_nat 0) with 0. rewrite Z.add_0_r.
      rewrite Z.mod_small by lia. lia.
    - rewrite Nat.iter_succ, IH.
      pose proof (Z.mod_pos_bound (p - 20000 + Z.of_nat j) 1000 ltac:(lia)).
      rewrite nextLocalPort_step by lia.
      replace (20000 + (p - 20000 + Z.of_nat j) mod 1000 - 20000 + 1)
        with ((p - 20000 + Z.of_nat j) mod 1000 + 1) by lia.
      rewrite Z.add_mod_idemp_l by lia.
      do 2 f_equal. lia. }
  pose proof (Z.mod_pos_bound (p - 20000 + Z.of_nat k) 1000 ltac:(lia)).
  rewrite !Hclosed. repeat split; try lia.
  f_equal.
  replace (p - 20000 + Z.of_nat (k + 1000))
    with (p - 20000 + Z.of_nat k + 1 * 1000) by lia.
  apply Z.mod_add. lia.
Qed.

Lemma nextLocalPort_cycle_witness :
  Nat.iter 3 nextLocalPort 20998 = 20001.
Proof.
  rewrite (proj1 (nextLocalPort_cycle 20998 3 ltac:(lia))). reflexivity.
Defined.

(** ** Filters on an open session *)

(** X12: on a session returned by [NewDualConn], [SetBBF] with a filter
    that has an instruction hands it to the raw send connection, after the
    drop-all filter installed at open time and in its place as the last
    program set, and returns what that installation reports; no filter is
    ever set on the receive connection.  With the empty filter [SetBBF]
    panics and makes no call. *)
Theorem SetBBF_after_NewDualConn
    (env : Env) (localAddr : string) (port : Z) (w w1 : World) (c : DualConn)
    (filter : list RawInstruction) :
  NewDualConn env localAddr port w = (Ok c, w1) ->
  filter ≠ [] ->
  (∃ dropAll new,
     Assemble env createDropAllBPF = Ok dropAll
     ∧ fst (SetBBF env c filter w1)
       = Returns (setBPF_err env w1 (sendConn c) filter)
     ∧ history (snd (SetBBF env c filter w1)) = history w ++ new
     ∧ filters_set_on (fd_of (sendConn c)) new = [dropAll; filter]
     ∧ filters_set_on (fd_of (recvConn c)) new = []
     ∧ opened (snd (SetBBF env c filter w1)) = opened w1)
  ∧ SetBBF env c [] w1 = (Panics, w1).
Proof.
  intros Hrun Hne. split; [|reflexivity].
  pose proof (is_fresh ({[fresh (opened w)]} ∪ opened w)) as Hfd'.
  rewrite elem_of_union, elem_of_singleton in Hfd'.
  apply NewDualConn_success in Hrun as (dropAll & Hasm & -> & Hhist & _).
  eexists dropAll, _. split; [exact Hasm|].
  unfold SetBBF. rewrite (RawConnSetBPF_nonempty _ _ _ _ Hne).
  split; [reflexivity|].
  unfold record_call. cbn [snd fst history opened sendConn recvConn fd_of].
  rewrite Hhist, <- app_assoc. split; [reflexivity|].
  cbn [app filters_set_on fd_of].
  destruct (decide (fresh (opened w) = fresh (opened w))) as [_|Hrefl];
    [|contradiction].
  destruct (decide (fresh (opened w)
                    = fresh ({[fresh (opened w)]} ∪ opened w))) as [Heq|_];
    [exfalso; apply Hfd'; left; symmetry; exact Heq|].
  repeat split.
Qed.

Lemma SetBBF_after_NewDualConn_witness :
  ∃ dropAll new,
    Assemble quiet createDropAllBPF = Ok dropAll
    ∧ filters_set_on 0%nat new = [dropAll; [mkRaw 6 0 0 65535]]
    ∧ filters_set_on 1%nat new = [].
Proof.
  destruct (SetBBF_after_NewDualConn quiet "127.0.0.1" 40000 empty_world
              (snd (NewDualConn quiet "127.0.0.1" 40000 empty_world))
              {| sendConn := RawConn 0%nat; recvConn := UDPConn 1%nat;
                 localIP := ""; timeout := 0; tos := 0; ttl := 64;
                 ipv4Flag := 0 |}
              [mkRaw 6 0 0 65535])
    as [(dropAll & new & Hasm & _ & _ & Hsend & Hrecv & _) _];
    [vm_compute; reflexivity | discriminate |].
  exists dropAll, new. split; [exact Hasm|]. split; [exact Hsend | exact Hrecv].
Defined.

(** X13: a successful [NewDualConn] has made four calls and no other:
    [net.ListenPacket] for "ip:udp" on the local address, [ipv4.NewRawConn]
    on the packet connection, [SetBPF] with the assembled drop-all filter on
    the raw connection, and [net.ListenUDP] for "udp" on the same local
    address and the port given; it has closed nothing. *)
Theorem NewDualConn_success_calls
    (env : Env) (localAddr : string) (port : Z) (w w' : World) (c : DualConn) :
  NewDualConn env localAddr port w = (Ok c, w') ->
  ∃ filter,
    Assemble env createDropAllBPF = Ok filter
    ∧ history w'
      = history w
          ++ [CListenPacket "ip:udp" localAddr;
              CNewRawConn (PacketConn (fd_of (sendConn c)));
              CSetBPF (sendConn c) filter;
              CListenUDP "udp" localAddr port]
    ∧ ∀ c', CClose c' ∉ drop (length (history w)) (history w').
Proof.
  intros Hrun.
  apply NewDualConn_success in Hrun as (filter & Hasm & -> & Hhist & _).
  exists filter. split; [exact Hasm|]. split; [exact Hhist|].
  intros c' Hin. rewrite Hhist, drop_app_length in Hin. absent_call Hin.
Qed.

Lemma NewDualConn_success_calls_witness :
  ∃ filter,
    Assemble quiet createDropAllBPF = Ok filter
    ∧ history (snd (NewDualConn quiet "127.0.0.1" 40000 empty_world))
      = [CListenPacket "ip:udp" "127.0.0.1"; CNewRawConn (PacketConn 0%nat);
         CSetBPF (RawConn 0%nat) filter; CListenUDP "udp" "127.0.0.1" 40000].
Proof.
  destruct (NewDualConn_success_calls quiet "127.0.0.1" 40000 empty_world
              (snd (NewDualConn quiet "127.0.0.1" 40000 empty_world))
              {| sendConn := RawConn 0%nat; recvConn := UDPConn 1%nat;
                 localIP := ""; timeout := 0; tos := 0; ttl := 64;
                 ipv4Flag := 0 |})
    as (filter & Hasm & Hcalls & _); [vm_compute; reflexivity|].
  exists filter. split; [exact Hasm | exact Hcalls].
Defined.
